(** * finance_tracker: the dashboard client (legacy-flask/static/script.js)

    A shallow embedding of the browser client of the money tracker and the
    properties its specification states about it.

    The client is DOM glue around a handful of platform services.  The
    services the properties depend on are modelled next to the code:
    - [JSDate]: the time-value arithmetic of ECMA-262 (section 21.4.1) that
      lies behind [new Date(..)], [getDate], [getMonth], [getFullYear],
      [getDay];
    - [JSNumber]: the interface of JavaScript numbers that the renderers use
      ([x || 0], [toFixed(2)], [Math.abs], conversion to text), with a
      decimal instance;
    - the DOM regions the script writes to, as records. *)

From Stdlib Require Import ZArith Lia Bool Ascii String.
From stdpp Require Import gmap strings list pretty.

(** ** Time values and calendar arithmetic of ECMA-262 *)

Module JSDate.
Local Open Scope Z_scope.

Definition msPerDay : Z := 86400000.

Definition Day (t : Z) : Z := t / msPerDay.
Definition TimeWithinDay (t : Z) : Z := t mod msPerDay.

Definition isLeapYear (y : Z) : bool :=
  (y mod 4 =? 0) && (negb (y mod 100 =? 0) || (y mod 400 =? 0)).

Definition DaysInYear (y : Z) : Z := if isLeapYear y then 366 else 365.

Definition DayFromYear (y : Z) : Z :=
  365 * (y - 1970) + (y - 1969) / 4 - (y - 1901) / 100 + (y - 1601) / 400.

(** ECMA-262 defines YearFromTime(t) as the largest year whose first day is
    not after [t].  The executable form below starts from the mean year
    length (146097 days in 400 years) and corrects by one; [YearFromDay_spec]
    proves that it is that largest year. *)
Definition YearFromDay (d : Z) : Z :=
  let y := 1970 + (d * 400) / 146097 in
  if d <? DayFromYear y then y - 1
  else if DayFromYear (y + 1) <=? d then y + 1
  else y.

Definition YearFromTime (t : Z) : Z := YearFromDay (Day t).
Definition InLeapYear (t : Z) : bool := isLeapYear (YearFromTime t).
Definition DayWithinYear (t : Z) : Z := Day t - DayFromYear (YearFromTime t).

(** Day number within the year on which month [m] (0 = January) starts. *)
Definition monthStart (leap : bool) (m : Z) : Z :=
  let l := if leap then 1 else 0 in
  match m with
  | 0 => 0
  | 1 => 31
  | 2 => 59 + l
  | 3 => 90 + l
  | 4 => 120 + l
  | 5 => 151 + l
  | 6 => 181 + l
  | 7 => 212 + l
  | 8 => 243 + l
  | 9 => 273 + l
  | 10 => 304 + l
  | 11 => 334 + l
  | _ => 365 + l
  end.

Definition monthOfYearDay (leap : bool) (d : Z) : Z :=
  if d <? monthStart leap 1 then 0
  else if d <? monthStart leap 2 then 1
  else if d <? monthStart leap 3 then 2
  else if d <? monthStart leap 4 then 3
  else if d <? monthStart leap 5 then 4
  else if d <? monthStart leap 6 then 5
  else if d <? monthStart leap 7 then 6
  else if d <? monthStart leap 8 then 7
  else if d <? monthStart leap 9 then 8
  else if d <? monthStart leap 10 then 9
  else if d <? monthStart leap 11 then 10
  else 11.

Definition MonthFromTime (t : Z) : Z :=
  monthOfYearDay (InLeapYear t) (DayWithinYear t).

Definition DateFromTime (t : Z) : Z :=
  DayWithinYear t - monthStart (InLeapYear t) (MonthFromTime t) + 1.

(** 0 = Sunday; day 0 (1 January 1970) was a Thursday. *)
Definition WeekDay (t : Z) : Z := (Day t + 4) mod 7.

(** MakeDay(year, month, date): months outside 0..11 carry into the year and
    [date] is an offset from the first of the month, so date 0 is the last
    day of the month before. *)
Definition MakeDay (year month date : Z) : Z :=
  let ym := year + month / 12 in
  let mn := month mod 12 in
  DayFromYear ym + monthStart (isLeapYear ym) mn + date - 1.

Definition MakeDate (day time : Z) : Z := day * msPerDay + time.

(** The viewer's time zone: [LocalTZA] is local time minus UTC, in
    milliseconds, taken constant (no daylight-saving change). *)
Section LocalTime.
Variable LocalTZA : Z.

Definition LocalTime (t : Z) : Z := t + LocalTZA.
Definition UTC (t : Z) : Z := t - LocalTZA.

(** [new Date(year, month, date)]: local midnight of that day; a year in
    0..99 is read as 1900 + year. *)
Definition Date_ymd (year month date : Z) : Z :=
  let yr := if (0 <=? year) && (year <=? 99) then 1900 + year else year in
  UTC (MakeDate (MakeDay yr month date) 0).

Definition getFullYear (t : Z) : Z := YearFromTime (LocalTime t).
Definition getMonth (t : Z) : Z := MonthFromTime (LocalTime t).
Definition getDate (t : Z) : Z := DateFromTime (LocalTime t).
Definition getDay (t : Z) : Z := WeekDay (LocalTime t).
End LocalTime.

(** *** The Gregorian calendar, stated independently *)

(** Length of month [m] (0 = January) of year [y]. *)
Definition daysInMonth (y m : Z) : Z :=
  match m with
  | 1 => if isLeapYear y then 29 else 28
  | 3 | 5 | 8 | 10 => 30
  | _ => 31
  end.

(** Zeller's congruence for the Gregorian calendar, on day [q] of month [m]
    (1 = January) of year [y], shifted so that 0 = Sunday. *)
Definition zeller (y m q : Z) : Z :=
  let y' := if m <? 3 then y - 1 else y in
  let m' := if m <? 3 then m + 12 else m in
  let K := y' mod 100 in
  let J := y' / 100 in
  (q + (13 * (m' + 1)) / 5 + K + K / 4 + J / 4 + 5 * J + 6) mod 7.

(** Weekday of the first day of month [m] (0 = January) of year [y]. *)
Definition firstWeekday (y m : Z) : Z := zeller y (m + 1) 1.

End JSDate.

(** ** Text

    Strings are taken as ASCII text; the white space [trim] removes is then
    tab, line feed, vertical tab, form feed, carriage return and space. *)

Fixpoint trimStart (s : string) : string :=
  match s with
  | String c s' => if Ascii.is_space c then trimStart s' else s
  | EmptyString => EmptyString
  end.

Definition trimEnd (s : string) : string := String.rev (trimStart (String.rev s)).

Definition trim (s : string) : string := trimEnd (trimStart s).

(** [s.padStart(2, '0')] *)
Definition padStart2 (s : string) : string :=
  match String.length s with
  | 0%nat => "00" +:+ s
  | 1%nat => "0" +:+ s
  | _ => s
  end.

(** ** Numbers

    The renderers use numbers through a few operations only.  They are
    collected in an interface, so that what is proved holds for every
    number representation that has them; [Decimal] below is one, exact on
    amounts given in hundredths. *)

Class JSNumber (num : Type) := {
  num_zero : num;
  (** ToBoolean: false on 0 and NaN *)
  num_truthy : num -> bool;
  (** [Math.abs] *)
  num_abs : num -> num;
  (** [x >= 0] *)
  num_nonneg : num -> bool;
  (** conversion to text, as in a template literal or a [textContent] store *)
  num_toString : num -> string;
  (** [x.toFixed(2)] *)
  num_toFixed2 : num -> string;
  num_truthy_zero : num_truthy num_zero = false;
  num_toString_zero : num_toString num_zero = "0";
  num_toFixed2_zero : num_toFixed2 num_zero = "0.00";
}.

Module Decimal.
Local Open Scope Z_scope.

(** An amount [z] stands for the number z / 100. *)
Definition sign (z : Z) : string := if z <? 0 then "-" else "".

Definition toFixed2 (z : Z) : string :=
  sign z +:+ pretty (Z.abs z / 100) +:+ "." +:+ padStart2 (pretty (Z.abs z mod 100)).

Definition toString (z : Z) : string :=
  let i := Z.abs z / 100 in
  let r := Z.abs z mod 100 in
  sign z +:+ pretty i +:+
    (if r =? 0 then ""
     else if r mod 10 =? 0 then "." +:+ pretty (r / 10)
     else "." +:+ padStart2 (pretty r)).

#[export] Instance number : JSNumber Z := {|
  num_zero := 0;
  num_truthy z := negb (z =? 0);
  num_abs := Z.abs;
  num_nonneg z := 0 <=? z;
  num_toString := toString;
  num_toFixed2 := toFixed2;
  num_truthy_zero := eq_refl;
  num_toString_zero := eq_refl;
  num_toFixed2_zero := eq_refl;
|}.
End Decimal.

(** ** The calendar *)

(** [Date.parse] on the date-only form YYYY-MM-DD of the date-time string
    format, which denotes midnight UTC of that day.  Event dates are ISO
    dates, and the embedding is exact on them, that is wherever the result
    is [Some].  [None] is returned for every other string and is treated
    as NaN; browsers accept more than this form (date-time strings, other
    separators, days past the end of the month), so nothing about the
    script is drawn from a [None]. *)
Definition digit (c : ascii) : option Z := Z.of_nat <$> Ascii.is_nat c.

Definition isDash (c : ascii) : bool := bool_decide (c = "-"%char).

Definition Date_parse (s : string) : option Z :=
  match list_ascii_of_string s with
  | [y1; y2; y3; y4; s1; m1; m2; s2; d1; d2] =>
      a ← digit y1; b ← digit y2; c ← digit y3; d ← digit y4;
      e ← digit m1; f ← digit m2; g ← digit d1; h ← digit d2;
      let year := (1000 * a + 100 * b + 10 * c + d)%Z in
      let month := (10 * e + f)%Z in
      let day := (10 * g + h)%Z in
      if isDash s1 && isDash s2
         && (1 <=? month)%Z && (month <=? 12)%Z
         && (1 <=? day)%Z && (day <=? JSDate.daysInMonth year (month - 1))%Z
      then Some (JSDate.MakeDate (JSDate.MakeDay year (month - 1) day) 0)
      else None
  | _ => None
  end.

Section Calendar.
Context {num : Type} `{JSNumber num}.

(** CalendarEvent, as [/calendar-data] returns it *)
Record event := Event {
  ev_date : string;
  ev_title : string;
  ev_amount : num;
  ev_type : string;
}.

(** A [div.calendar-event] inside a day cell *)
Record marker := Marker {
  mk_className : string;
  mk_textContent : string;
  mk_title : string;
}.

(** The children of [#calendar-grid] *)
Inductive gridCell :=
| HeaderDay (textContent : string)                         (* div.calendar-header-day *)
| EmptyDay                                                 (* div.calendar-day, empty *)
| DayCell (day : Z) (hasEvent : bool) (markers : list marker).
                                       (* div.calendar-day with <strong>day</strong> *)

Record calendar := Calendar {
  current_month : string;
  calendar_grid : list gridCell;
}.

(** The viewer's environment: time zone and the long month names of the
    locale ([toLocaleString('default', { month: 'long' })]). *)
Variable LocalTZA : Z.
Variable monthLong : Z -> string.

Definition days : list string := ["Sun"; "Mon"; "Tue"; "Wed"; "Thu"; "Fri"; "Sat"].

(** The predicate of [events.filter] at lines 238-243 *)
Definition eventOnDay (day currentMonth currentYear : Z) (e : event) : bool :=
  match Date_parse (ev_date e) with
  | Some eventDate =>
      (JSDate.getDate LocalTZA eventDate =? day)%Z
      && (JSDate.getMonth LocalTZA eventDate =? currentMonth)%Z
      && (JSDate.getFullYear LocalTZA eventDate =? currentYear)%Z
  | None => false
  end.

Definition eventMarker (e : event) : marker :=
  {| mk_className := "calendar-event " +:+ ev_type e;
     mk_textContent := ev_title e;
     mk_title := ev_title e +:+ ": $" +:+ num_toString (num_abs (ev_amount e)) |}.

Definition dayCell (events : list event) (currentMonth currentYear day : Z) : gridCell :=
  let dayEvents := filter (fun e => eventOnDay day currentMonth currentYear e) events in
  DayCell day (bool_decide (0 < length dayEvents)%nat) (eventMarker <$> dayEvents).

(** [renderCalendar(events)], with [now] the instant [new Date()] gives *)
Definition renderCalendar (now : Z) (events : list event) : calendar :=
  let currentMonth := JSDate.getMonth LocalTZA now in
  let currentYear := JSDate.getFullYear LocalTZA now in
  let firstDay := JSDate.getDay LocalTZA (JSDate.Date_ymd LocalTZA currentYear currentMonth 1) in
  let daysInMonth :=
    JSDate.getDate LocalTZA (JSDate.Date_ymd LocalTZA currentYear (currentMonth + 1) 0) in
  {| current_month := monthLong currentMonth +:+ " " +:+ pretty currentYear;
     calendar_grid :=
       (HeaderDay <$> days)
       ++ replicate (Z.to_nat firstDay) EmptyDay
       ++ (dayCell events currentMonth currentYear <$> seqZ 1 daysInMonth) |}.
End Calendar.

Arguments event : clear implicits.
Arguments marker : clear implicits.
Arguments gridCell : clear implicits.
Arguments calendar : clear implicits.

(** ** Response bodies *)

(** A request either yields a parsed body, or fails: transport error,
    status outside 2xx where the caller checks it, or a body that is not
    JSON.  Each of the three makes the awaiting code throw. *)
Inductive response (A : Type) :=
| Body (a : A)
| Failed.
Arguments Body {A} a.
Arguments Failed {A}.

Section Values.
Context {num : Type} `{JSNumber num}.

(** A field of a response object; [JUndefined] is the absent field. *)
Inductive jsval :=
| JUndefined
| JNull
| JBool (b : bool)
| JNum (n : num)
| JStr (s : string)
| JObj (text : string).       (* an object or array; [text] is its ToString *)

Definition truthy (v : jsval) : bool :=
  match v with
  | JUndefined | JNull => false
  | JBool b => b
  | JNum n => num_truthy n
  | JStr s => negb (bool_decide (s = ""))
  | JObj _ => true
  end.

(** [v || d] *)
Definition orElse (v d : jsval) : jsval := if truthy v then v else d.

(** The text a [textContent] store leaves in the element. *)
Definition textContentOf (v : jsval) : string :=
  match v with
  | JUndefined => "undefined"
  | JNull => ""
  | JBool true => "true"
  | JBool false => "false"
  | JNum n => num_toString n
  | JStr s => s
  | JObj text => text
  end.

(** [v.toFixed(2)]; [None] is the TypeError on a value without the method. *)
Definition toFixed2 (v : jsval) : option string :=
  match v with
  | JNum n => Some (num_toFixed2 n)
  | _ => None
  end.

(** SummaryView, as [/summary] returns it *)
Record summary := Summary {
  error : jsval;
  totalTransactions : jsval;
  totalDeposits : jsval;
  totalWithdrawals : jsval;
  netAmount : jsval;
}.

(** CategoryBreakdown and MonthlyTrend; [None] is the absent array. *)
Record categoryBreakdown := CategoryBreakdown {
  cb_labels : option (list string);
  cb_data : option (list num);
}.

Record monthlyTrend := MonthlyTrend {
  mt_labels : option (list string);
  mt_income : option (list num);
  mt_expenses : option (list num);
}.

(** An entry of [/recent-transactions] *)
Record transaction := Transaction {
  tx_store : option string;
  tx_category : option string;
  tx_date : option string;
  tx_amount : option num;
  tx_type : string;
}.

(** What the server answers during one run of [init]. *)
Record server := Server {
  sv_test : response unit;
  sv_summary : response summary;
  sv_category : response categoryBreakdown;
  sv_trends : response monthlyTrend;
  sv_calendar : response (list (event num));
  sv_recent : response (list transaction);
}.

(** ** The page regions of the dashboard *)

(** The four summary tiles: [#total-transactions], [#total-income],
    [#total-expenses], [#net-amount]. *)
Record tiles := Tiles {
  total_transactions : string;
  total_income : string;
  total_expenses : string;
  net_amount : string;
}.

Inductive chartType := pie | line.

(** A Chart.js instance.  The options are constants of the source and are
    left out. *)
Record chart := Chart {
  ch_canvas : string;
  ch_type : chartType;
  ch_labels : list string;
  ch_datasets : list (string * list num);
  ch_destroyed : bool;
}.

Definition destroy (c : chart) : chart :=
  {| ch_canvas := ch_canvas c; ch_type := ch_type c; ch_labels := ch_labels c;
     ch_datasets := ch_datasets c; ch_destroyed := true |}.

(** A child of [#recent-transactions] *)
Inductive recentChild :=
| NoTransactionsFound                               (* the placeholder <p> *)
| TransactionItem (store category date : string)    (* div.transaction-item *)
                  (amountClass amountText : string).

Inductive method := GET | POST.

Record request := Request {
  rq_method : method;
  rq_url : string;
  rq_body : option (string * string * string * string);
}.

(** A [FinanceTracker] with the page it writes to.  [chartInstances] holds
    every chart constructed so far, a chart being known by its index;
    [charts] is [this.charts]. *)
Record dashboard := Dashboard {
  canvases : gset string;
  summaryTiles : tiles;
  charts : gmap string nat;
  chartInstances : list chart;
  calendarRegion : option calendar;
  recentTransactions : list recentChild;
  errorBanners : list string;
  console : list string;
  network : list request;
}.

Definition set_tiles (t : tiles) (d : dashboard) : dashboard :=
  Dashboard (canvases d) t (charts d) (chartInstances d) (calendarRegion d)
            (recentTransactions d) (errorBanners d) (console d) (network d).
Definition set_charts (c : gmap string nat) (i : list chart) (d : dashboard) : dashboard :=
  Dashboard (canvases d) (summaryTiles d) c i (calendarRegion d)
            (recentTransactions d) (errorBanners d) (console d) (network d).
Definition set_calendar (c : calendar) (d : dashboard) : dashboard :=
  Dashboard (canvases d) (summaryTiles d) (charts d) (chartInstances d) (Some c)
            (recentTransactions d) (errorBanners d) (console d) (network d).
Definition set_recent (r : list recentChild) (d : dashboard) : dashboard :=
  Dashboard (canvases d) (summaryTiles d) (charts d) (chartInstances d) (calendarRegion d)
            r (errorBanners d) (console d) (network d).
Definition add_banner (m : string) (d : dashboard) : dashboard :=
  Dashboard (canvases d) (summaryTiles d) (charts d) (chartInstances d) (calendarRegion d)
            (recentTransactions d) (m :: errorBanners d) (console d) (network d).
Definition add_console (m : string) (d : dashboard) : dashboard :=
  Dashboard (canvases d) (summaryTiles d) (charts d) (chartInstances d) (calendarRegion d)
            (recentTransactions d) (errorBanners d) (console d ++ [m]) (network d).
Definition add_request (r : request) (d : dashboard) : dashboard :=
  Dashboard (canvases d) (summaryTiles d) (charts d) (chartInstances d) (calendarRegion d)
            (recentTransactions d) (errorBanners d) (console d) (network d ++ [r]).

(** The page as loaded and the tracker as its constructor leaves it,
    before [init]; the text the template puts in the regions is not read
    by the script. *)
Definition pageLoaded (cs : gset string) : dashboard :=
  {| canvases := cs;
     summaryTiles := Tiles "" "" "" "";
     charts := ∅;
     chartInstances := [];
     calendarRegion := None;
     recentTransactions := [];
     errorBanners := [];
     console := [];
     network := [] |}.

(** ** Methods run in a state and exception monad *)

Inductive result (A : Type) :=
| Ok (a : A)
| Throw (message : string).
Arguments Ok {A} a.
Arguments Throw {A} message.

Definition M (A : Type) : Type := dashboard -> result A * dashboard.

Definition ret {A} (a : A) : M A := fun d => (Ok a, d).
Definition throw {A} (message : string) : M A := fun d => (Throw message, d).
Definition bind {A B} (m : M A) (k : A -> M B) : M B :=
  fun d => match m d with
           | (Ok a, d') => k a d'
           | (Throw e, d') => (Throw e, d')
           end.
Definition tryCatch {A} (body : M A) (handler : string -> M A) : M A :=
  fun d => match body d with
           | (Ok a, d') => (Ok a, d')
           | (Throw e, d') => handler e d'
           end.
Definition modify (f : dashboard -> dashboard) : M unit := fun d => (Ok tt, f d).
Definition gets {A} (f : dashboard -> A) : M A := fun d => (Ok (f d), d).
Definition exec {A} (m : M A) (d : dashboard) : dashboard := snd (m d).
End Values.

Arguments jsval : clear implicits.
Arguments summary : clear implicits.
Arguments categoryBreakdown : clear implicits.
Arguments monthlyTrend : clear implicits.
Arguments transaction : clear implicits.
Arguments server : clear implicits.
Arguments chart : clear implicits.
Arguments dashboard : clear implicits.
Arguments M : clear implicits.
Arguments Ok {A} a.
Arguments Throw {A} message.

Declare Scope js_scope.
Delimit Scope js_scope with js.
Notation "'let*' x := m 'in' k" := (bind m (fun x => k))
  (at level 10, x name, m at level 100, k at level 200) : js_scope.
Notation "m >>> k" := (bind m (fun _ => k))
  (at level 80, right associativity) : js_scope.

(** ** class FinanceTracker *)

Section FinanceTracker.
Context {num : Type} `{JSNumber num}.
Variable LocalTZA : Z.
Variable monthLong : Z -> string.
Local Open Scope js_scope.

Local Abbreviation M := (M num).
Local Abbreviation dashboard := (dashboard num).

Definition apiBase : string := "http://localhost:3000/api".

(** [fetchData(endpoint)], with the answer the server gives to it *)
Definition fetchData {A} (endpoint : string) (r : response A) : M A :=
  modify (add_request (Request GET (apiBase +:+ endpoint) None)) >>>
  match r with
  | Body a => ret a
  | Failed => throw "HTTP error!"
  end.

Definition testConnection (sv : server num) : M unit :=
  tryCatch
    (modify (add_request (Request GET (apiBase +:+ "/test") None)) >>>
     match sv_test sv with
     | Body _ => modify (add_console "API Test:")
     | Failed => throw "Server not responding"
     end)
    (fun _ => throw "Cannot connect to server. Make sure Flask app is running on port 5000.").

Definition setTiles (f : tiles -> tiles) : M unit :=
  modify (fun d => set_tiles (f (summaryTiles d)) d).

Definition showLoading : M unit :=
  setTiles (fun t => Tiles "Loading..." (total_income t) (total_expenses t) (net_amount t)) >>>
  setTiles (fun t => Tiles (total_transactions t) "Loading..." (total_expenses t) (net_amount t)) >>>
  setTiles (fun t => Tiles (total_transactions t) (total_income t) "Loading..." (net_amount t)) >>>
  setTiles (fun t => Tiles (total_transactions t) (total_income t) (total_expenses t) "Loading...").

Definition showError (message : string) : M unit := modify (add_banner message).

(** [`$${v.toFixed(2)}`] *)
Definition dollars (v : jsval num) : M string :=
  match toFixed2 v with
  | Some s => ret ("$" +:+ s)
  | None => throw "TypeError: toFixed is not a function"
  end.

Definition zero : jsval num := JNum num_zero.

Definition loadSummary (sv : server num) : M unit :=
  tryCatch
    (let* summary := fetchData "/summary" (sv_summary sv) in
     (if truthy (error summary) then throw (textContentOf (error summary)) else ret tt) >>>
     setTiles (fun t => Tiles (textContentOf (orElse (totalTransactions summary) zero))
                              (total_income t) (total_expenses t) (net_amount t)) >>>
     let* income := dollars (orElse (totalDeposits summary) zero) in
     setTiles (fun t => Tiles (total_transactions t) income (total_expenses t) (net_amount t)) >>>
     let* expenses := dollars (orElse (totalWithdrawals summary) zero) in
     setTiles (fun t => Tiles (total_transactions t) (total_income t) expenses (net_amount t)) >>>
     let* net := dollars (orElse (netAmount summary) zero) in
     setTiles (fun t => Tiles (total_transactions t) (total_income t) (total_expenses t) net))
    (fun _ =>
     modify (add_console "Error loading summary:") >>>
     setTiles (fun t => Tiles "0" (total_income t) (total_expenses t) (net_amount t)) >>>
     setTiles (fun t => Tiles (total_transactions t) "$0.00" (total_expenses t) (net_amount t)) >>>
     setTiles (fun t => Tiles (total_transactions t) (total_income t) "$0.00" (net_amount t)) >>>
     setTiles (fun t => Tiles (total_transactions t) (total_income t) (total_expenses t) "$0.00")).

(** Lines 97-102, the same in both chart methods: look the canvas up,
    which throws when there is none, and destroy the chart bound to the
    identifier, if any. *)
Definition destroyExisting (canvasId : string) : M unit :=
  let* cs := gets canvases in
  if bool_decide (canvasId ∈ cs) then
    modify (fun d =>
      match charts d !! canvasId with
      | Some i => set_charts (charts d) (alter destroy i (chartInstances d)) d
      | None => d
      end)
  else throw "TypeError: document.getElementById(...) is null".

(** [this.charts[canvasId] = new Chart(ctx, ..)] *)
Definition bindNew (canvasId : string) (c : chart num) : M unit :=
  modify (fun d =>
    set_charts (<[canvasId := length (chartInstances d)]> (charts d))
               (chartInstances d ++ [c]) d).

Definition createPieChart (canvasId title : string) (data : categoryBreakdown num) : M unit :=
  destroyExisting canvasId >>>
  bindNew canvasId
    {| ch_canvas := canvasId; ch_type := pie;
       ch_labels := default [] (cb_labels data);
       ch_datasets := [("", default [] (cb_data data))];
       ch_destroyed := false |}.

Definition createLineChart (canvasId title : string) (data : monthlyTrend num) : M unit :=
  destroyExisting canvasId >>>
  bindNew canvasId
    {| ch_canvas := canvasId; ch_type := line;
       ch_labels := default [] (mt_labels data);
       ch_datasets := [("Income", default [] (mt_income data));
                       ("Expenses", default [] (mt_expenses data))];
       ch_destroyed := false |}.

Definition loadCharts (sv : server num) : M unit :=
  tryCatch
    (let* categoryData := fetchData "/spending-by-category" (sv_category sv) in
     createPieChart "spending-chart" "Spending by Category" categoryData >>>
     let* trendsData := fetchData "/monthly-trends" (sv_trends sv) in
     createLineChart "trends-chart" "Monthly Income vs Expenses" trendsData)
    (fun _ => modify (add_console "Error loading charts:")).

(** [now] is the instant at which [renderCalendar] reads the clock. *)
Definition loadCalendar (sv : server num) (now : Z) : M unit :=
  tryCatch
    (let* calendarData := fetchData "/calendar-data" (sv_calendar sv) in
     modify (set_calendar (renderCalendar LocalTZA monthLong now calendarData)))
    (fun _ =>
     modify (add_console "Error loading calendar:") >>>
     modify (set_calendar (renderCalendar LocalTZA monthLong now []))).

(** [s || d] on a string field that may be absent *)
Definition orDefault (s : option string) (d : string) : string :=
  match s with
  | Some v => if bool_decide (v = "") then d else v
  | None => d
  end.

Definition transactionItem (t : transaction num) : recentChild :=
  let amount := match tx_amount t with
                | Some a => if num_truthy a then a else num_zero
                | None => num_zero
                end in
  let plus := match tx_amount t with
              | Some a => if num_nonneg a then "+" else ""
              | None => ""
              end in
  TransactionItem (orDefault (tx_store t) "Unknown")
                  (orDefault (tx_category t) "Uncategorized")
                  (orDefault (tx_date t) "N/A")
                  ("transaction-amount " +:+ tx_type t)
                  (plus +:+ "$" +:+ num_toFixed2 (num_abs amount)).

Definition renderTransactions (transactions : list (transaction num)) : M unit :=
  modify (set_recent []) >>>
  match transactions with
  | [] => modify (set_recent [NoTransactionsFound])
  | _ => modify (set_recent (transactionItem <$> transactions))
  end.

Definition loadRecentTransactions (sv : server num) : M unit :=
  tryCatch
    (let* transactions := fetchData "/recent-transactions" (sv_recent sv) in
     renderTransactions transactions)
    (fun _ =>
     modify (add_console "Error loading transactions:") >>>
     renderTransactions []).

Definition init (sv : server num) (now : Z) : M unit :=
  tryCatch
    (showLoading >>>
     testConnection sv >>>
     loadSummary sv >>>
     loadCharts sv >>>
     loadCalendar sv now >>>
     loadRecentTransactions sv)
    (fun _ =>
     modify (add_console "Error initializing dashboard:") >>>
     showError "Failed to load dashboard data. Please check if the server is running.").

(** [reloadData()]; [r] is the [success] field of the answer. *)
Definition reloadData (r : response bool) (sv : server num) (now : Z) : M unit :=
  tryCatch
    (let* success := fetchData "/reload-data" r in
     if success : bool then modify (add_console "Data reloaded:") >>> init sv now
     else ret tt)
    (fun _ => modify (add_console "Error reloading data:")).

(** A call of one of the two chart methods *)
Inductive chartCall :=
| PieCall (canvasId title : string) (data : categoryBreakdown num)
| LineCall (canvasId title : string) (data : monthlyTrend num).

Definition callChart (c : chartCall) : M unit :=
  match c with
  | PieCall canvasId title data => createPieChart canvasId title data
  | LineCall canvasId title data => createLineChart canvasId title data
  end.

(** The calls made one after the other, a throwing call being caught by
    its caller as [loadCharts] does. *)
Definition callCharts (cs : list chartCall) (d : dashboard) : dashboard :=
  foldl (fun d c => exec (callChart c) d) d cs.

(** The charts bound to a canvas and not destroyed *)
Definition liveOn (canvasId : string) (d : dashboard) : list (chart num) :=
  filter (fun c => ch_canvas c = canvasId /\ ch_destroyed c = false) (chartInstances d).
(** Every chart that is not destroyed is the one [this.charts] holds for its
    canvas. *)
Definition liveAreBound (d : dashboard) : Prop :=
  forall (i : nat) (c : chart num),
    chartInstances d !! i = Some c -> ch_destroyed c = false ->
    charts d !! ch_canvas c = Some i.

Definition canvasOf (c : chartCall) : string :=
  match c with
  | PieCall canvasId _ _ | LineCall canvasId _ _ => canvasId
  end.

End FinanceTracker.

(** ** The transaction form *)

(** An [option] element and a [select] with its list of options; at most
    one option is selected, [None] being [selectedIndex = -1]. *)
Record optionEl := OptionEl {
  op_value : string;
  op_text : string;
}.

Record select := Select {
  sel_options : list optionEl;
  sel_selected : option nat;
}.

(** [select.value]: the value of the selected option, or the empty string. *)
Definition select_value (s : select) : string :=
  match sel_selected s with
  | Some i => match sel_options s !! i with
              | Some o => op_value o
              | None => ""
              end
  | None => ""
  end.

Fixpoint indexOfValue (v : string) (l : list optionEl) : option nat :=
  match l with
  | [] => None
  | o :: l' => if bool_decide (op_value o = v) then Some 0%nat
               else S <$> indexOfValue v l'
  end.

(** [select.value = v]: the first option of that value becomes the selected
    one; without such an option none is selected. *)
Definition set_value (v : string) (s : select) : select :=
  Select (sel_options s) (indexOfValue v (sel_options s)).

(** [select.insertBefore(option, select.lastElementChild)] for an option
    whose [selected] was set: it goes before the last option (or becomes
    the only one) and is the selected option from then on. *)
Definition insertBeforeLast (o : optionEl) (s : select) : select :=
  let k := pred (length (sel_options s)) in
  Select (take k (sel_options s) ++ o :: drop k (sel_options s)) (Some k).

Definition sentinel : string := "NEW_CATEGORY".
Definition sentinelOption : optionEl := OptionEl sentinel "+ Add New Category".
Definition placeholderOption : optionEl := OptionEl "" "Select a category".

(** The options [loadCategories] builds at lines 349-364. *)
Definition populate (categories : list string) : select :=
  Select (placeholderOption :: ((fun c => OptionEl c c) <$> categories) ++ [sentinelOption])
         (Some 0%nat).

(** The [change] handler of the category select, lines 403-418; [answer]
    is what [prompt] returns, [None] when it is dismissed. *)
Definition onCategoryChange (answer : option string) (s : select) : select :=
  if bool_decide (select_value s = sentinel) then
    match answer with
    | Some newCategory =>
        if bool_decide (newCategory <> "") && negb (bool_decide (trim newCategory = ""))
        then insertBeforeLast (OptionEl (trim newCategory) (trim newCategory)) s
        else set_value "" s
    | None => set_value "" s
    end
  else s.

Record button := Button {
  disabled : bool;
  innerHTML : string;
}.

Record messageDiv := MessageDiv {
  msg_textContent : string;
  msg_className : string;
}.

(** What a timer set by [showMessage] does to the class list of [#message]. *)
Inductive timerAction := AddShow | RemoveShow.

(** The page of the form.  The four fields are read unguarded by the
    submit handler; the select and the date input are looked up guarded by
    the functions that fill them, and the submit button and the message
    element are guarded everywhere. *)
Record formPage := FormPage {
  titleInput : string;
  categorySelect : option select;
  amountInput : string;
  dateInput : option string;
  submitBtn : option button;
  message : option messageDiv;
  timers : list (Z * timerAction);
  formConsole : list string;
  formNetwork : list request;
}.

Definition with_category (c : option select) (p : formPage) : formPage :=
  FormPage (titleInput p) c (amountInput p) (dateInput p) (submitBtn p) (message p)
           (timers p) (formConsole p) (formNetwork p).
Definition with_date (d : option string) (p : formPage) : formPage :=
  FormPage (titleInput p) (categorySelect p) (amountInput p) d (submitBtn p) (message p)
           (timers p) (formConsole p) (formNetwork p).
Definition with_submitBtn (b : option button) (p : formPage) : formPage :=
  FormPage (titleInput p) (categorySelect p) (amountInput p) (dateInput p) b (message p)
           (timers p) (formConsole p) (formNetwork p).
Definition with_message (m : option messageDiv) (t : list (Z * timerAction))
    (p : formPage) : formPage :=
  FormPage (titleInput p) (categorySelect p) (amountInput p) (dateInput p) (submitBtn p) m
           t (formConsole p) (formNetwork p).
Definition with_console (m : string) (p : formPage) : formPage :=
  FormPage (titleInput p) (categorySelect p) (amountInput p) (dateInput p) (submitBtn p)
           (message p) (timers p) (formConsole p ++ [m]) (formNetwork p).
Definition with_request (r : request) (p : formPage) : formPage :=
  FormPage (titleInput p) (categorySelect p) (amountInput p) (dateInput p) (submitBtn p)
           (message p) (timers p) (formConsole p) (formNetwork p ++ [r]).

(** [setTodayDate()]: the local date of [now] as YYYY-MM-DD. *)
Definition todayString (LocalTZA now : Z) : string :=
  pretty (JSDate.getFullYear LocalTZA now) +:+ "-"
  +:+ padStart2 (pretty (JSDate.getMonth LocalTZA now + 1)%Z) +:+ "-"
  +:+ padStart2 (pretty (JSDate.getDate LocalTZA now)).

Definition setTodayDate (LocalTZA now : Z) (p : formPage) : formPage :=
  match dateInput p with
  | Some _ => with_date (Some (todayString LocalTZA now)) p
  | None => p
  end.

Definition categoriesUrl : string := "http://localhost:5000/api/categories".
Definition appendUrl : string := "http://localhost:5000/api/append".

(** What is left of the select when [data.categories] is not an array:
    line 350 has put the placeholder in, and [forEach] throws before any
    option is appended. *)
Definition placeholderOnly : select := Select [placeholderOption] (Some 0%nat).

(** [loadCategories()]; the answer carries [success] and, when it is an
    array, [categories]. *)
Definition loadCategories (r : response (bool * option (list string))) (p : formPage) :
    formPage :=
  let p := with_request (Request GET categoriesUrl None) p in
  match r with
  | Body (true, categories) =>
      match categorySelect p with
      | Some _ =>
          match categories with
          | Some cs => with_category (Some (populate cs)) p
          | None =>
              with_console "Error loading categories:"
                (with_category (Some placeholderOnly) p)
          end
      | None => p
      end
  | Body (false, _) => p
  | Failed => with_console "Error loading categories:" p
  end.

Definition showMessage (text type : string) (p : formPage) : formPage :=
  match message p with
  | Some _ =>
      with_message (Some (MessageDiv text ("message " +:+ type)))
                   (timers p ++ [(10%Z, AddShow); (5000%Z, RemoveShow)]) p
  | None => p
  end.

Definition dquote : string := String (ascii_of_nat 34) EmptyString.

(** The busy label of the submit button, with its spinner element. *)
Definition addingLabel : string :=
  "<span class=" +:+ dquote +:+ "loading" +:+ dquote +:+ "></span>Adding...".

(** What the append request comes back with: no answer, an answer that is
    not a JSON object, or the object's [success] and [message]. *)
Inductive appendReply :=
| TransportError
| NotJson
| Reply (success : bool) (message : string).

(** The submit handler up to its request, lines 425-457.  [None] for the
    page is the TypeError of reading a field that is not there; the second
    component tells whether the request was issued. *)
Definition submitStart (p : formPage) : option (formPage * bool) :=
  match categorySelect p, dateInput p with
  | Some sel, Some date =>
      let title := trim (titleInput p) in
      let category := select_value sel in
      if bool_decide (category = sentinel) then
        Some (showMessage "Please select a valid category" "error" p, false)
      else
        let p := match submitBtn p with
                 | Some _ => with_submitBtn (Some (Button true addingLabel)) p
                 | None => p
                 end in
        Some (with_request
                (Request POST appendUrl (Some (title, category, amountInput p, date))) p,
              true)
  | _, _ => None
  end.

(** [transactionForm.reset()]: the text fields go back to the values the
    page gives them, taken empty here, and the select to its first
    option. *)
Definition resetForm (p : formPage) : formPage :=
  FormPage "" 
           ((fun s => Select (sel_options s)
                             (match sel_options s with [] => None | _ => Some 0%nat end))
              <$> categorySelect p)
           ""
           ((fun _ => "") <$> dateInput p)
           (submitBtn p) (message p) (timers p) (formConsole p) (formNetwork p).

(** The handler from the answer on, lines 459-477. *)
Definition submitFinish (LocalTZA now : Z) (a : appendReply) (p : formPage) : formPage :=
  let p :=
    match a with
    | Reply true text => setTodayDate LocalTZA now (resetForm (showMessage text "success" p))
    | Reply false text => showMessage text "error" p
    | TransportError | NotJson =>
        with_console "Error:"
          (showMessage "Network error. Please check your connection." "error" p)
    end in
  match submitBtn p with
  | Some _ => with_submitBtn (Some (Button false "Add Transaction")) p
  | None => p
  end.

(** A whole submission. *)
Definition submit (LocalTZA now : Z) (a : appendReply) (p : formPage) : option formPage :=
  match submitStart p with
  | Some (p', true) => Some (submitFinish LocalTZA now a p')
  | Some (p', false) => Some p'
  | None => None
  end.

(** What can happen to the category select: the list is loaded, from an
    answer with an array of categories or from one without, or the user
    picks option [i] and answers the prompt if it comes, or the form is
    reset. *)
Inductive selectEvent :=
| Loaded (categories : list string)
| LoadedWithoutList
| Picked (i : nat) (answer : option string)
| WasReset.

Definition fromList (e : selectEvent) : bool :=
  match e with
  | LoadedWithoutList => false
  | _ => true
  end.

Definition pick (i : nat) (s : select) : select :=
  if bool_decide (i < length (sel_options s))%nat then Select (sel_options s) (Some i) else s.

Definition selectStep (s : select) (e : selectEvent) : select :=
  match e with
  | Loaded categories => populate categories
  | LoadedWithoutList => placeholderOnly
  | Picked i answer => onCategoryChange answer (pick i s)
  | WasReset => Select (sel_options s) (match sel_options s with [] => None | _ => Some 0%nat end)
  end.

(** The endpoints of the HTTP surface. *)
Definition endpoints : list string :=
  ["/test"; "/summary"; "/spending-by-category"; "/monthly-trends"; "/calendar-data";
   "/recent-transactions"; "/categories"; "/reload-data"; "/append"].

(** All requests lie under [base]: each URL is [base] followed by one of
    the endpoints. *)
Definition underOneBase (base : string) (urls : list string) : Prop :=
  Forall (fun u => Exists (fun endpoint => u = base +:+ endpoint) endpoints) urls.

(** The markers shown in the cell of day [d] of a rendered grid. *)
Definition markersOfDay (d : Z) (grid : list gridCell) : list marker :=
  flat_map (fun c => match c with
                     | DayCell day _ mks => if (day =? d)%Z then mks else []
                     | _ => []
                     end) grid.

(** The event of the specification's example: dated 2024-03-15, amount
    -42.50. *)
Definition march15 : event Z :=
  {| ev_date := "2024-03-15"; ev_title := "Groceries";
     ev_amount := (-4250)%Z; ev_type := "expense" |}.

(** A viewer five hours west of Greenwich, and noon UTC of 20 March 2024. *)
Definition tzNewYork : Z := (-5 * 3600000)%Z.
Definition noon20March2024 : Z := 1710936000000%Z.
(** Noon UTC of 15 April 2026. *)
Definition noon15April2026 : Z := 1776254400000%Z.

(** Sample inputs: a select as loaded with no category, on which the user
    has picked the last option; a form page with every element; a server
    that answers every request; a page with both canvases. *)
Definition sentinelPicked : select := pick 1 (populate []).

Definition samplePage (category : select) : formPage :=
  {| titleInput := " Coffee ";
     categorySelect := Some category;
     amountInput := "-4.50";
     dateInput := Some "2024-03-15";
     submitBtn := Some (Button false "Add Transaction");
     message := Some (MessageDiv "" "message");
     timers := [];
     formConsole := [];
     formNetwork := [] |}.

Definition answering : server Z :=
  {| sv_test := Body tt;
     sv_summary := Body (Summary JUndefined (JNum 3%Z) (JNum 120000%Z) JUndefined JUndefined);
     sv_category := Body (CategoryBreakdown (Some ["Food"]) (Some [4250%Z]));
     sv_trends := Body (MonthlyTrend (Some ["Mar"]) (Some [120000%Z]) (Some [4250%Z]));
     sv_calendar := Body [march15];
     sv_recent := Body [] |}.

Definition bothCanvases : gset string := {["spending-chart"; "trends-chart"]}.

(** Every URL requested while a page with the dashboard and the form
    loads and one transaction is submitted. *)
Definition pageLoadUrls : list string :=
  (rq_url <$> network (exec (init (H := Decimal.number) 0 (fun _ => "March")
                               answering noon20March2024)
                         (pageLoaded bothCanvases)))
  ++ (rq_url <$> from_option formNetwork []
        (submit 0 noon20March2024 (Reply true "Added")
           (loadCategories (Body (true, Some ["Food"])) (samplePage (populate []))))).

(** A server that is reachable but fails every view except the calendar. *)
Definition struggling : server Z :=
  {| sv_test := Body tt;
     sv_summary := Failed;
     sv_category := Failed;
     sv_trends := Failed;
     sv_calendar := Body [march15];
     sv_recent := Failed |}.

(** ** Further notions used by the properties below *)

Section Reloads.
Context {num : Type} `{JSNumber num}.
Variable LocalTZA : Z.
Variable monthLong : Z -> string.

(** Repeated loads of the dashboard: each run is a [reloadData()] with the
    answer to [/reload-data], the answers of the views and the instant of
    the clock. *)
Definition reloads (runs : list (response bool * server num * Z)) (d : dashboard num) :
    dashboard num :=
  foldl (fun d '(r, sv, now) => exec (reloadData LocalTZA monthLong r sv now) d) d runs.

(** The event is dated, in the viewer's zone, in the month and year shown. *)
Definition inShownMonth (currentMonth currentYear : Z) (e : event num) : bool :=
  match Date_parse (ev_date e) with
  | Some eventDate =>
      (JSDate.getMonth LocalTZA eventDate =? currentMonth)%Z
      && (JSDate.getFullYear LocalTZA eventDate =? currentYear)%Z
  | None => false
  end.
End Reloads.

(** A method keeps a property of the page, whether it returns or throws. *)
Definition preserves {num A} (P : dashboard num -> Prop) (m : M num A) : Prop :=
  forall d, P d -> P (snd (m d)).

(** All markers of a grid, cell after cell. *)
Definition allMarkers (grid : list gridCell) : list marker :=
  flat_map (fun c => match c with DayCell _ _ mks => mks | _ => [] end) grid.

(** Checks, by evaluation, that the decimal text of [n] is made of the
    digits of [n]: four of them for a year, two after padding for a month
    or a day. *)
Definition fourDigits (n : Z) : bool :=
  match list_ascii_of_string (pretty n) with
  | [a; b; c; d] =>
      bool_decide (digit a = Some (n / 1000)%Z /\ digit b = Some (n / 100 mod 10)%Z
                   /\ digit c = Some (n / 10 mod 10)%Z /\ digit d = Some (n mod 10)%Z)
  | _ => false
  end.

Definition twoDigits (n : Z) : bool :=
  match list_ascii_of_string (padStart2 (pretty n)) with
  | [a; b] => bool_decide (digit a = Some (n / 10)%Z /\ digit b = Some (n mod 10)%Z)
  | _ => false
  end.

(** More sample inputs: a server that cannot be reached, and one whose
    summary carries text where an amount should be. *)
Definition unreachable : server Z :=
  {| sv_test := Failed; sv_summary := Failed; sv_category := Failed;
     sv_trends := Failed; sv_calendar := Failed; sv_recent := Failed |}.

Definition textAmount : summary Z :=
  Summary JUndefined (JNum 3%Z) (JStr "12.00") (JNum 4250%Z) (JNum 100%Z).

Definition withTextAmount : server Z :=
  {| sv_test := Body tt; sv_summary := Body textAmount; sv_category := Failed;
     sv_trends := Failed; sv_calendar := Failed; sv_recent := Failed |}.

(** A summary of three transactions: 1200.00 in, 42.50 out, no net amount
    given (amounts in hundredths). *)
Definition threeTransactions : summary Z :=
  Summary JUndefined (JNum 300%Z) (JNum 120000%Z) (JNum 4250%Z) JUndefined.

Definition summarizing : server Z :=
  {| sv_test := Body tt; sv_summary := Body threeTransactions; sv_category := Failed;
     sv_trends := Failed; sv_calendar := Failed; sv_recent := Failed |}.

(** The sample form page with a submit button labelled "Save". *)
Definition savePage : formPage :=
  with_submitBtn (Some (Button false "Save")) (samplePage (populate [])).




(** * Properties

    ** Calendar arithmetic *)

Module JSDateFacts.
Import JSDate.
Local Open Scope Z_scope.

Ltac divmod := Z.div_mod_to_equations; lia.

Lemma isLeapYear_mod y :
  isLeapYear y = true <-> y mod 4 = 0 /\ (y mod 100 <> 0 \/ y mod 400 = 0).
Proof.
  unfold isLeapYear.
  rewrite andb_true_iff, orb_true_iff, negb_true_iff, !Z.eqb_eq, Z.eqb_neq.
  tauto.
Qed.

Lemma DayFromYear_succ y : DayFromYear (y + 1) = DayFromYear y + DaysInYear y.
Proof.
  unfold DayFromYear, DaysInYear.
  destruct (isLeapYear y) eqn:E.
  - apply isLeapYear_mod in E. divmod.
  - assert (H : ~ (y mod 4 = 0 /\ (y mod 100 <> 0 \/ y mod 400 = 0)))
      by (rewrite <- isLeapYear_mod; congruence).
    divmod.
Qed.

Lemma DaysInYear_bounds y : 365 <= DaysInYear y <= 366.
Proof. unfold DaysInYear. destruct (isLeapYear y); lia. Qed.

Lemma DayFromYear_mono a b : a <= b -> DayFromYear a + 365 * (b - a) <= DayFromYear b.
Proof. unfold DayFromYear. intros. divmod. Qed.

(** The executable year is the one ECMA-262 defines: its first day is not
    after [d] and the first day of the next year is. *)
Lemma YearFromDay_spec d :
  DayFromYear (YearFromDay d) <= d < DayFromYear (YearFromDay d + 1).
Proof.
  unfold YearFromDay.
  set (y := 1970 + d * 400 / 146097).
  assert (Hlo : DayFromYear (y - 1) <= d) by (unfold DayFromYear, y; divmod).
  assert (Hhi : d < DayFromYear (y + 2)) by (unfold DayFromYear, y; divmod).
  destruct (Z.ltb_spec d (DayFromYear y)).
  - replace (y - 1 + 1) with y by lia. lia.
  - destruct (Z.leb_spec (DayFromYear (y + 1)) d).
    + replace (y + 1 + 1) with (y + 2) by lia. lia.
    + lia.
Qed.

Lemma YearFromDay_unique d y :
  DayFromYear y <= d < DayFromYear (y + 1) -> YearFromDay d = y.
Proof.
  intros Hy. pose proof (YearFromDay_spec d) as Hs.
  destruct (Z.lt_trichotomy (YearFromDay d) y) as [Hlt | [-> | Hgt]]; [| done |].
  - pose proof (DayFromYear_mono (YearFromDay d + 1) y). lia.
  - pose proof (DayFromYear_mono (y + 1) (YearFromDay d)). lia.
Qed.

Lemma YearFromDay_in_year y k :
  0 <= k < DaysInYear y -> YearFromDay (DayFromYear y + k) = y.
Proof.
  intros Hk. apply YearFromDay_unique. rewrite DayFromYear_succ. lia.
Qed.

Lemma Day_MakeDate d : Day (MakeDate d 0) = d.
Proof. unfold Day, MakeDate, msPerDay. divmod. Qed.

Lemma monthStart_succ leap m :
  0 <= m <= 11 ->
  monthStart leap (m + 1) =
  monthStart leap m + (match m with
                       | 1 => if leap then 29 else 28
                       | 3 | 5 | 8 | 10 => 30
                       | _ => 31
                       end).
Proof.
  intros Hm.
  assert (Hc : m = 0 \/ m = 1 \/ m = 2 \/ m = 3 \/ m = 4 \/ m = 5 \/ m = 6 \/
               m = 7 \/ m = 8 \/ m = 9 \/ m = 10 \/ m = 11) by lia.
  destruct leap; repeat (destruct Hc as [-> | Hc]; [reflexivity |]); subst; reflexivity.
Qed.

Lemma monthStart_daysInMonth y m :
  0 <= m <= 11 ->
  monthStart (isLeapYear y) (m + 1) = monthStart (isLeapYear y) m + daysInMonth y m.
Proof.
  intros Hm. rewrite monthStart_succ by done. unfold daysInMonth.
  destruct (isLeapYear y); reflexivity.
Qed.

Lemma daysInMonth_bounds y m : 28 <= daysInMonth y m <= 31.
Proof.
  unfold daysInMonth. repeat case_match; lia.
Qed.

Lemma monthStart_last leap : monthStart leap 12 = if leap then 366 else 365.
Proof. destruct leap; reflexivity. Qed.

Lemma monthStart_nonneg leap m : 0 <= m <= 11 -> 0 <= monthStart leap m.
Proof.
  intros Hm.
  assert (Hc : m = 0 \/ m = 1 \/ m = 2 \/ m = 3 \/ m = 4 \/ m = 5 \/ m = 6 \/
               m = 7 \/ m = 8 \/ m = 9 \/ m = 10 \/ m = 11) by lia.
  destruct leap; repeat (destruct Hc as [-> | Hc]; [simpl; lia |]); subst; simpl; lia.
Qed.

(** A day of month [m] lies in month [m]. *)
Lemma monthOfYearDay_in_month leap m k :
  0 <= m <= 11 ->
  monthStart leap m <= k < monthStart leap (m + 1) ->
  monthOfYearDay leap k = m.
Proof.
  intros Hm.
  assert (Hc : m = 0 \/ m = 1 \/ m = 2 \/ m = 3 \/ m = 4 \/ m = 5 \/ m = 6 \/
               m = 7 \/ m = 8 \/ m = 9 \/ m = 10 \/ m = 11) by lia.
  unfold monthOfYearDay.
  destruct leap;
    repeat (destruct Hc as [-> | Hc];
            [simpl; intros Hk; repeat case_match; lia |]);
    subst; simpl; intros Hk; repeat case_match; lia.
Qed.

Lemma MakeDay_in_range y m :
  0 <= m <= 11 -> MakeDay y m 1 = DayFromYear y + monthStart (isLeapYear y) m.
Proof.
  intros Hm. unfold MakeDay.
  rewrite Z.div_small, Z.mod_small by lia.
  replace (y + 0) with y by lia. lia.
Qed.

(** Date 0 of the month after [m] is the last day of month [m]. *)
Lemma MakeDay_last_of_month y m :
  0 <= m <= 11 -> MakeDay y (m + 1) 0 = MakeDay y m 1 + daysInMonth y m - 1.
Proof.
  intros Hm. rewrite (MakeDay_in_range y m) by done.
  destruct (decide (m = 11)) as [-> | Hne].
  - unfold MakeDay. change ((11 + 1) / 12) with 1. change ((11 + 1) mod 12) with 0.
    rewrite DayFromYear_succ. unfold DaysInYear, daysInMonth.
    destruct (isLeapYear y), (isLeapYear (y + 1)); simpl; lia.
  - unfold MakeDay. rewrite Z.div_small, Z.mod_small by lia.
    replace (y + 0) with y by lia.
    rewrite monthStart_daysInMonth by done. lia.
Qed.

Lemma monthStart_le_year y j : 0 <= j <= 12 -> monthStart (isLeapYear y) j <= DaysInYear y.
Proof.
  intros Hj. unfold DaysInYear.
  assert (Hc : j = 0 \/ j = 1 \/ j = 2 \/ j = 3 \/ j = 4 \/ j = 5 \/ j = 6 \/
               j = 7 \/ j = 8 \/ j = 9 \/ j = 10 \/ j = 11 \/ j = 12) by lia.
  destruct (isLeapYear y);
    repeat (destruct Hc as [-> | Hc]; [simpl; lia |]); subst; simpl; lia.
Qed.

(** Any instant [t] of day [d] of month [m] of year [y] reads back as that
    year, month and date. *)
Section Roundtrip.
Variables (y m d t : Z).
Hypothesis Hm : 0 <= m <= 11.
Hypothesis Hd : 1 <= d <= daysInMonth y m.
Hypothesis Ht : Day t = MakeDay y m d.

Let k := monthStart (isLeapYear y) m + d - 1.

Lemma day_of_month_in_year : 0 <= k < DaysInYear y.
Proof using Hm Hd.
  subst k. pose proof (monthStart_nonneg (isLeapYear y) m Hm).
  pose proof (monthStart_le_year y (m + 1)).
  rewrite monthStart_daysInMonth in * by done. lia.
Qed.

Lemma Day_eq : Day t = DayFromYear y + k.
Proof using Hm Ht.
  subst k. rewrite Ht. unfold MakeDay.
  rewrite Z.div_small, Z.mod_small by lia.
  replace (y + 0) with y by lia. lia.
Qed.

Lemma YearFromTime_MakeDay : YearFromTime t = y.
Proof using Hm Hd Ht.
  unfold YearFromTime. rewrite Day_eq.
  apply YearFromDay_in_year, day_of_month_in_year.
Qed.

Lemma DayWithinYear_MakeDay : DayWithinYear t = k.
Proof using Hm Hd Ht.
  unfold DayWithinYear. rewrite YearFromTime_MakeDay, Day_eq. lia.
Qed.

Lemma MonthFromTime_MakeDay : MonthFromTime t = m.
Proof using Hm Hd Ht.
  unfold MonthFromTime, InLeapYear.
  rewrite YearFromTime_MakeDay, DayWithinYear_MakeDay.
  apply monthOfYearDay_in_month; [done |].
  rewrite monthStart_daysInMonth by done. subst k. lia.
Qed.

Lemma DateFromTime_MakeDay : DateFromTime t = d.
Proof using Hm Hd Ht.
  unfold DateFromTime. rewrite MonthFromTime_MakeDay, DayWithinYear_MakeDay.
  unfold InLeapYear. rewrite YearFromTime_MakeDay. subst k. lia.
Qed.
End Roundtrip.

(** The month of any time value is one of the twelve. *)
Lemma DayWithinYear_bounds t : 0 <= DayWithinYear t < DaysInYear (YearFromTime t).
Proof.
  unfold DayWithinYear, YearFromTime.
  pose proof (YearFromDay_spec (Day t)) as H.
  rewrite DayFromYear_succ in H. lia.
Qed.

Lemma MonthFromTime_bounds t : 0 <= MonthFromTime t <= 11.
Proof.
  unfold MonthFromTime, monthOfYearDay. repeat case_match; lia.
Qed.

(** The day count from the epoch agrees with Zeller's congruence. *)
Lemma WeekDay_first_of_month y m :
  0 <= m <= 11 -> (MakeDay y m 1 + 4) mod 7 = firstWeekday y m.
Proof.
  intros Hm. rewrite MakeDay_in_range by done.
  assert (Hc : m = 0 \/ m = 1 \/ m = 2 \/ m = 3 \/ m = 4 \/ m = 5 \/ m = 6 \/
               m = 7 \/ m = 8 \/ m = 9 \/ m = 10 \/ m = 11) by lia.
  unfold firstWeekday, zeller, DayFromYear.
  destruct (isLeapYear y) eqn:E.
  - apply isLeapYear_mod in E.
    repeat (destruct Hc as [-> | Hc]; [simpl; divmod |]). subst. simpl. divmod.
  - assert (H : ~ (y mod 4 = 0 /\ (y mod 100 <> 0 \/ y mod 400 = 0)))
      by (rewrite <- isLeapYear_mod; congruence).
    repeat (destruct Hc as [-> | Hc]; [simpl; divmod |]). subst. simpl. divmod.
Qed.

(** Every time value decomposes into a valid date of the calendar. *)
Lemma DateFromTime_bounds t :
  1 <= DateFromTime t <= daysInMonth (YearFromTime t) (MonthFromTime t).
Proof.
  pose proof (DayWithinYear_bounds t) as Hk.
  pose proof (MonthFromTime_bounds t) as Hm.
  unfold DateFromTime.
  assert (Hin : monthStart (InLeapYear t) (MonthFromTime t) <= DayWithinYear t
                < monthStart (InLeapYear t) (MonthFromTime t + 1)).
  { unfold MonthFromTime, monthOfYearDay in *. unfold DaysInYear in Hk.
    fold (InLeapYear t) in Hk.
    destruct (InLeapYear t); simpl in *; repeat case_match; simpl; lia. }
  unfold InLeapYear in *. rewrite monthStart_daysInMonth in Hin by done. lia.
Qed.

Lemma Day_decompose t :
  Day t = MakeDay (YearFromTime t) (MonthFromTime t) (DateFromTime t).
Proof.
  pose proof (MonthFromTime_bounds t) as Hm.
  unfold MakeDay. rewrite Z.div_small, Z.mod_small, Z.add_0_r by lia.
  unfold DateFromTime, DayWithinYear, InLeapYear. lia.
Qed.

(** *** Local getters on dates built from local fields *)

Section LocalFacts.
Variable LocalTZA : Z.

Lemma LocalTime_Date_ymd y m d :
  ~ (0 <= y <= 99) ->
  Day (LocalTime LocalTZA (Date_ymd LocalTZA y m d)) = MakeDay y m d.
Proof.
  intros Hy. unfold Date_ymd, LocalTime, UTC.
  replace ((0 <=? y) && (y <=? 99)) with false
    by (symmetry; apply andb_false_iff; lia).
  rewrite Z.sub_add. apply Day_MakeDate.
Qed.

(** [new Date(y, m, 1).getDay()] *)
Lemma getDay_first_of_month y m :
  ~ (0 <= y <= 99) -> 0 <= m <= 11 ->
  getDay LocalTZA (Date_ymd LocalTZA y m 1) = firstWeekday y m.
Proof.
  intros Hy Hm. unfold getDay, WeekDay.
  rewrite LocalTime_Date_ymd by done. by apply WeekDay_first_of_month.
Qed.

(** [new Date(y, m + 1, 0).getDate()] *)
Lemma getDate_last_of_month y m :
  ~ (0 <= y <= 99) -> 0 <= m <= 11 ->
  getDate LocalTZA (Date_ymd LocalTZA y (m + 1) 0) = daysInMonth y m.
Proof.
  intros Hy Hm. unfold getDate.
  pose proof (daysInMonth_bounds y m).
  apply (DateFromTime_MakeDay y m); [done | lia |].
  rewrite LocalTime_Date_ymd, MakeDay_last_of_month by done.
  unfold MakeDay. lia.
Qed.
End LocalFacts.

End JSDateFacts.

(** ** The calendar *)

Section CalendarFacts.
Import JSDate JSDateFacts.
Context {num : Type} `{JSNumber num}.
Variable LocalTZA : Z.
Variable monthLong : Z -> string.
Local Open Scope Z_scope.

Lemma firstWeekday_bounds y m : 0 <= firstWeekday y m < 7.
Proof. unfold firstWeekday, zeller. apply Z.mod_pos_bound. lia. Qed.

Lemma dayCells_lookup (events : list (event num)) mo yr n (i : nat) :
  (i < Z.to_nat n)%nat ->
  (dayCell LocalTZA events mo yr <$> seqZ 1 n) !! i
  = Some (dayCell LocalTZA events mo yr (Z.of_nat i + 1)).
Proof.
  intros Hi. rewrite list_lookup_fmap, lookup_seqZ_lt by lia.
  simpl. f_equal. f_equal. lia.
Qed.

(** C4.  For the month and year the calendar shows, the grid is the seven
    weekday headers, then as many empty cells as the weekday of the first
    of the month (Gregorian calendar, 0 = Sunday), then one cell per day of
    the month, numbered from 1: as many as the Gregorian month has days.
    The shown year is assumed not to lie in 0..99, which the Date
    constructor reads as 1900..1999; the clock of a running system is
    never there. *)
Theorem renderCalendar_cell_counts (now : Z) (events : list (event num)) :
  let year := getFullYear LocalTZA now in
  let month := getMonth LocalTZA now in
  ~ (0 <= year <= 99) ->
  exists blanks dayCells : list gridCell,
    calendar_grid (renderCalendar LocalTZA monthLong now events)
    = (HeaderDay <$> days) ++ blanks ++ dayCells
    /\ blanks = replicate (length blanks) EmptyDay
    /\ Z.of_nat (length blanks) = firstWeekday year month
    /\ Z.of_nat (length dayCells) = daysInMonth year month
    /\ forall i : nat, (i < length dayCells)%nat ->
         exists hasEvent markers,
           dayCells !! i = Some (DayCell (Z.of_nat i + 1) hasEvent markers).
Proof.
  intros year month Hy.
  assert (Hm : 0 <= month <= 11) by apply MonthFromTime_bounds.
  pose proof (firstWeekday_bounds year month) as Hw.
  pose proof (daysInMonth_bounds year month) as Hd.
  unfold renderCalendar. fold year month. cbn [calendar_grid].
  rewrite getDay_first_of_month, getDate_last_of_month by done.
  eexists _, _. split; [reflexivity |].
  rewrite length_replicate, length_fmap, length_seqZ.
  repeat split; try lia.
  intros i Hi. rewrite dayCells_lookup by lia. unfold dayCell. eauto.
Qed.

(** *** Where an event lands *)

(** The date-only form denotes midnight UTC of a valid calendar day. *)
Lemma Date_parse_valid s t :
  Date_parse s = Some t ->
  exists y m d, 0 <= m <= 11 /\ 1 <= d <= daysInMonth y m
                /\ t = MakeDate (MakeDay y m d) 0.
Proof.
  unfold Date_parse. intros Hp.
  repeat (case_match; try done). simplify_option_eq.
  match goal with
  | Hi : (if ?c then _ else _) = Some _ |- _ =>
      destruct c eqn:Hc; [injection Hi as <- | done]
  end.
  repeat match goal with
         | Hb : _ && _ = true |- _ => apply andb_true_iff in Hb; destruct Hb
         end.
  eexists _, _, _. split; [| split; [| reflexivity]]; lia.
Qed.

(** The local getters see day [Day t + 1], [Day t] or [Day t - 1] of a UTC
    midnight, according to the sign of the zone offset. *)
Lemma Day_local_east dd :
  0 <= LocalTZA < msPerDay -> Day (LocalTime LocalTZA (MakeDate dd 0)) = dd.
Proof. unfold Day, LocalTime, MakeDate, msPerDay. intros. divmod. Qed.

Lemma Day_local_west dd :
  - msPerDay <= LocalTZA < 0 -> Day (LocalTime LocalTZA (MakeDate dd 0)) = dd - 1.
Proof. unfold Day, LocalTime, MakeDate, msPerDay. intros. divmod. Qed.

(** At or east of Greenwich an event is matched on the day, month and
    year of its date field, and on no other. *)
Lemma eventOnDay_east_of_UTC (e : event num) t day mo yr :
  0 <= LocalTZA < msPerDay ->
  Date_parse (ev_date e) = Some t ->
  eventOnDay LocalTZA day mo yr e = true
  <-> day = DateFromTime t /\ mo = MonthFromTime t /\ yr = YearFromTime t.
Proof.
  intros Htz Hp. unfold eventOnDay. rewrite Hp.
  destruct (Date_parse_valid _ _ Hp) as (y & m & d & Hm & Hd & ->).
  unfold getDate, getMonth, getFullYear.
  pose proof (Day_local_east (MakeDay y m d) Htz) as Hl.
  pose proof (Day_MakeDate (MakeDay y m d)) as Hu.
  rewrite (DateFromTime_MakeDay y m d _ Hm Hd Hl),
          (MonthFromTime_MakeDay y m d _ Hm Hd Hl),
          (YearFromTime_MakeDay y m d _ Hm Hd Hl),
          (DateFromTime_MakeDay y m d _ Hm Hd Hu),
          (MonthFromTime_MakeDay y m d _ Hm Hd Hu),
          (YearFromTime_MakeDay y m d _ Hm Hd Hu).
  rewrite !andb_true_iff, !Z.eqb_eq. intuition congruence.
Qed.

(** West of Greenwich the local getters read the eve of the date field:
    the event is never matched on its own date. *)
Lemma eventOnDay_west_of_UTC (e : event num) t :
  - msPerDay <= LocalTZA < 0 ->
  Date_parse (ev_date e) = Some t ->
  eventOnDay LocalTZA (DateFromTime t) (MonthFromTime t) (YearFromTime t) e = false.
Proof.
  intros Htz Hp. unfold eventOnDay. rewrite Hp.
  destruct (Date_parse_valid _ _ Hp) as (y & m & d & Hm & Hd & ->).
  pose proof (Day_local_west (MakeDay y m d) Htz) as Hl.
  pose proof (Day_MakeDate (MakeDay y m d)) as Hu.
  apply not_true_is_false. rewrite !andb_true_iff, !Z.eqb_eq.
  unfold getDate, getMonth, getFullYear. intros [[Hdd Hmm] Hyy].
  pose proof (Day_decompose (LocalTime LocalTZA (MakeDate (MakeDay y m d) 0))) as Ha.
  pose proof (Day_decompose (MakeDate (MakeDay y m d) 0)) as Hb.
  rewrite Hdd, Hmm, Hyy, <- Hb in Ha. lia.
Qed.
End CalendarFacts.

(** The specification's example of a 30-day month starting on a Wednesday:
    April 2026 renders as 3 empty cells and 30 day cells. *)
Example renderCalendar_April_2026 :
  calendar_grid (renderCalendar (H := Decimal.number) 0 (fun _ => "April") noon15April2026 [])
  = (HeaderDay <$> days) ++ replicate 3 EmptyDay
    ++ ((fun d => DayCell d false []) <$> seqZ 1 30).
Proof. vm_compute. reflexivity. Qed.

Lemma renderCalendar_cell_counts_witness :
  ~ (0 <= JSDate.getFullYear 0 noon15April2026 <= 99)%Z
  /\ exists blanks dayCells : list gridCell,
      calendar_grid (renderCalendar (H := Decimal.number) 0 (fun _ => "April")
                       noon15April2026 [])
      = (HeaderDay <$> days) ++ blanks ++ dayCells
      /\ blanks = replicate (length blanks) EmptyDay
      /\ Z.of_nat (length blanks)
         = JSDate.firstWeekday (JSDate.getFullYear 0 noon15April2026)
                               (JSDate.getMonth 0 noon15April2026)
      /\ Z.of_nat (length dayCells)
         = JSDate.daysInMonth (JSDate.getFullYear 0 noon15April2026)
                              (JSDate.getMonth 0 noon15April2026)
      /\ forall i : nat, (i < length dayCells)%nat ->
           exists hasEvent markers,
             dayCells !! i = Some (DayCell (Z.of_nat i + 1) hasEvent markers).
Proof.
  assert (Hy : ~ (0 <= JSDate.getFullYear 0 noon15April2026 <= 99)%Z).
  { replace (JSDate.getFullYear 0 noon15April2026) with 2026%Z
      by (vm_compute; reflexivity). lia. }
  split; [exact Hy |].
  exact (renderCalendar_cell_counts (H := Decimal.number) 0 (fun _ => "April")
           noon15April2026 [] Hy).
Defined.

(** C1 (the code departs from it).  A viewer west of Greenwich, here at
    UTC-5 in March 2024, sees the event dated 2024-03-15 in the cell of day
    14 and not in the cell of day 15: [new Date("2024-03-15")] is midnight
    UTC, which the local getters of lines 240-242 read as the evening of 14
    March. *)
Theorem event_2024_03_15_rendered_on_day_14 :
  let grid := calendar_grid (renderCalendar (H := Decimal.number) tzNewYork
                               (fun _ => "March") noon20March2024 [march15]) in
  markersOfDay 15 grid = []
  /\ markersOfDay 14 grid
     = [ {| mk_className := "calendar-event expense";
            mk_textContent := "Groceries";
            mk_title := "Groceries: $42.5" |} ].
Proof. vm_compute. split; reflexivity. Qed.

(** ** The dashboard *)

Section DashboardFacts.
Context {num : Type} `{JSNumber num}.
Variable LocalTZA : Z.
Variable monthLong : Z -> string.
Local Abbreviation dashboard := (dashboard num).

(** *** Summary tiles *)

(** C7.  Whatever else the answer of [/summary] holds, the tile of each
    absent field shows its zero default: "0" for the number of transactions,
    "$0.00" for deposits, withdrawals and net amount. *)
Theorem loadSummary_absent_fields_default (sv : server num) (s : summary num) (d : dashboard) :
  sv_summary sv = Body s ->
  let t := summaryTiles (exec (loadSummary sv) d) in
  (totalTransactions s = JUndefined -> total_transactions t = "0")
  /\ (totalDeposits s = JUndefined -> total_income t = "$0.00")
  /\ (totalWithdrawals s = JUndefined -> total_expenses t = "$0.00")
  /\ (netAmount s = JUndefined -> net_amount t = "$0.00").
Proof.
  intros Hsv t. subst t.
  unfold loadSummary, exec, tryCatch, bind, fetchData, modify, setTiles, modify, dollars.
  rewrite Hsv. cbn.
  destruct (truthy (error s)); [by repeat split |].
  destruct (toFixed2 (orElse (totalDeposits s) zero)) eqn:E1; [| by repeat split].
  destruct (toFixed2 (orElse (totalWithdrawals s) zero)) eqn:E2; [| by repeat split].
  destruct (toFixed2 (orElse (netAmount s) zero)) eqn:E3; [| by repeat split].
  repeat split; intros Ha; rewrite Ha in *; cbn in *.
  - apply num_toString_zero.
  - injection E1 as <-. by rewrite num_toFixed2_zero.
  - injection E2 as <-. by rewrite num_toFixed2_zero.
  - injection E3 as <-. by rewrite num_toFixed2_zero.
Qed.
End DashboardFacts.

(** *** Charts *)

Section ChartFacts.
Context {num : Type} `{JSNumber num}.
Local Abbreviation dashboard := (dashboard num).

Lemma destroyExisting_run canvasId (d : dashboard) :
  canvasId ∈ canvases d ->
  destroyExisting canvasId d
  = (Ok tt, match charts d !! canvasId with
            | Some i => set_charts (charts d) (alter destroy i (chartInstances d)) d
            | None => d
            end).
Proof.
  intros Hc. unfold destroyExisting, bind, gets, modify.
  by rewrite bool_decide_eq_true_2.
Qed.

Lemma destroyExisting_throws canvasId (d : dashboard) :
  canvasId ∉ canvases d -> exists e, destroyExisting canvasId d = (Throw e, d).
Proof.
  intros Hc. unfold destroyExisting, bind, gets, throw.
  rewrite bool_decide_eq_false_2 by done. eauto.
Qed.

(** Rebinding a canvas: what lines 97-104 (and 138-145) do to the charts. *)
Lemma rebind_liveAreBound canvasId (c : chart num) (d : dashboard) :
  ch_canvas c = canvasId ->
  liveAreBound d ->
  liveAreBound (exec (destroyExisting canvasId >>> bindNew canvasId c)%js d).
Proof.
  intros Hcv Hinv. unfold exec, bind.
  destruct (decide (canvasId ∈ canvases d)) as [Hin | Hout].
  2: { destruct (destroyExisting_throws canvasId d Hout) as [e ->]. done. }
  rewrite destroyExisting_run by done. unfold bindNew, modify. cbn [snd].
  intros j c' Hj Hlive.
  destruct (charts d !! canvasId) as [i |] eqn:Hb; cbn in *.
  - rewrite length_alter in *.
    apply lookup_app_Some in Hj as [Hj | [Hlen Hj]].
    + destruct (decide (i = j)) as [-> | Hne].
      * rewrite list_lookup_alter_eq in Hj.
        destruct (chartInstances d !! j); simplify_eq/=.
      * rewrite list_lookup_alter_ne in Hj by done.
        pose proof (Hinv j c' Hj Hlive) as Hbound.
        rewrite lookup_insert_ne; [done |]. congruence.
    + rewrite length_alter in *.
      apply list_lookup_singleton_Some in Hj as [Hj ->].
      rewrite Hcv, lookup_insert_eq. f_equal. lia.
  - apply lookup_app_Some in Hj as [Hj | [Hlen Hj]].
    + pose proof (Hinv j c' Hj Hlive) as Hbound.
      rewrite lookup_insert_ne; [done |]. congruence.
    + apply list_lookup_singleton_Some in Hj as [Hj ->].
      rewrite Hcv, lookup_insert_eq. f_equal. lia.
Qed.

Lemma callChart_liveAreBound (c : chartCall) (d : dashboard) :
  liveAreBound d -> liveAreBound (exec (callChart c) d).
Proof.
  destruct c; apply rebind_liveAreBound; reflexivity.
Qed.

Lemma callCharts_liveAreBound (cs : list chartCall) (d : dashboard) :
  liveAreBound d -> liveAreBound (callCharts cs d).
Proof.
  revert d. induction cs as [| c cs IH]; intros d Hd; [done |].
  apply IH. by apply callChart_liveAreBound.
Qed.

Lemma callChart_canvases (c : chartCall) (d : dashboard) :
  canvases (exec (callChart c) d) = canvases d.
Proof.
  destruct c as [canvasId title data | canvasId title data];
    cbn [callChart]; unfold createPieChart, createLineChart, exec, bind;
    (destruct (decide (canvasId ∈ canvases d)) as [Hin | Hout];
     [ rewrite destroyExisting_run by done; by destruct (charts d !! canvasId)
     | by destruct (destroyExisting_throws canvasId d Hout) as [e ->] ]).
Qed.

Lemma callCharts_canvases (cs : list chartCall) (d : dashboard) :
  canvases (callCharts cs d) = canvases d.
Proof.
  revert d. induction cs as [| c cs IH]; intros d; [done |].
  cbn. unfold callCharts in IH. rewrite IH. apply callChart_canvases.
Qed.

Lemma pageLoaded_liveAreBound cs : liveAreBound (pageLoaded (num := num) cs).
Proof. intros i c Hi. done. Qed.

Lemma filter_nil_intro {A} (P : A -> Prop) `{!forall x, Decision (P x)} (l : list A) :
  (forall x, x ∈ l -> ~ P x) -> filter P l = [].
Proof.
  intros Hn. destruct (filter P l) as [| y ys] eqn:E; [done |].
  assert (Hy : y ∈ filter P l) by (rewrite E; left).
  apply list_elem_of_filter in Hy as [Py Hy]. by destruct (Hn y Hy).
Qed.

(** A list in which at most one position satisfies [P] has at most one
    element in its filter. *)
Lemma filter_at_most_one {A} (P : A -> Prop) `{!forall x, Decision (P x)} (l : list A) :
  (forall i j x y, l !! i = Some x -> l !! j = Some y -> P x -> P y -> i = j) ->
  (length (filter P l) <= 1)%nat.
Proof.
  induction l as [| a l IH]; intros Hu; [simpl; lia |].
  rewrite filter_cons. destruct (decide (P a)) as [Ha | Hna].
  - assert (Hnil : filter P l = []).
    { apply filter_nil_intro. intros y Hy Py.
      apply list_elem_of_lookup in Hy as [j Hj].
      specialize (Hu 0%nat (S j) a y eq_refl Hj Ha Py). done. }
    rewrite Hnil. simpl. lia.
  - apply IH. intros i j x y Hi Hj Px Py.
    specialize (Hu (S i) (S j) x y Hi Hj Px Py). lia.
Qed.

Lemma liveAreBound_at_most_one (d : dashboard) canvasId :
  liveAreBound d -> (length (liveOn canvasId d) <= 1)%nat.
Proof.
  intros Hinv. unfold liveOn. apply filter_at_most_one.
  intros i j x y Hi Hj [Hx1 Hx2] [Hy1 Hy2].
  pose proof (Hinv i x Hi Hx2) as Ea. pose proof (Hinv j y Hj Hy2) as Eb.
  rewrite Hx1 in Ea. rewrite Hy1 in Eb. congruence.
Qed.

(** C5.  After any sequence of calls of [createPieChart] and
    [createLineChart] on a freshly loaded page, every canvas identifier has
    at most one chart that is not destroyed; and a further call on a canvas
    that has a chart bound destroys that chart and binds a new, live one. *)
Theorem at_most_one_live_chart (cs : gset string) (calls : list chartCall) :
  let d := callCharts calls (pageLoaded cs) in
  (forall canvasId, (length (liveOn canvasId d) <= 1)%nat)
  /\ (forall (call : chartCall) (i : nat) (c : chart num),
        canvasOf call ∈ cs ->
        charts d !! canvasOf call = Some i ->
        chartInstances d !! i = Some c ->
        let d' := exec (callChart call) d in
        chartInstances d' !! i = Some (destroy c)
        /\ exists c', charts d' !! canvasOf call = Some (length (chartInstances d))
                      /\ chartInstances d' !! length (chartInstances d) = Some c'
                      /\ ch_canvas c' = canvasOf call
                      /\ ch_destroyed c' = false
                      /\ liveOn (canvasOf call) d' = [c']).
Proof.
  intros d.
  assert (Hinv : liveAreBound d) by apply callCharts_liveAreBound, pageLoaded_liveAreBound.
  split; [intros canvasId; by apply liveAreBound_at_most_one |].
  intros call i c Hin Hb Hi d'.
  assert (Hcs : canvases d = cs) by apply callCharts_canvases.
  assert (Hrun : exists c', ch_canvas c' = canvasOf call /\ ch_destroyed c' = false
            /\ d' = set_charts (<[canvasOf call := length (chartInstances d)]> (charts d))
                               (alter destroy i (chartInstances d) ++ [c']) d).
  { subst d'. destruct call as [canvasId title data | canvasId title data];
      cbn [callChart canvasOf] in *; unfold createPieChart, createLineChart, exec, bind;
      rewrite destroyExisting_run by (by rewrite Hcs); rewrite Hb;
      unfold bindNew, modify; cbn [snd chartInstances charts set_charts];
      rewrite length_alter; eexists; (split; [| split; [| reflexivity]]); reflexivity. }
  destruct Hrun as (c' & Hcv & Hlv & ->). cbn [chartInstances charts set_charts].
  pose proof (lookup_lt_Some _ _ _ Hi) as Hlt.
  split.
  - rewrite lookup_app_l by (by rewrite length_alter).
    by rewrite list_lookup_alter_eq, Hi.
  - exists c'. repeat split; try done.
    + apply lookup_insert_eq.
    + rewrite lookup_app_r by (by rewrite length_alter).
      by rewrite length_alter, Nat.sub_diag.
    + unfold liveOn. cbn [chartInstances set_charts].
      rewrite filter_app, filter_cons_True, filter_nil by done.
      rewrite filter_nil_intro; [done |].
      intros x Hx [Hx1 Hx2]. apply list_elem_of_lookup in Hx as [j Hj].
      destruct (decide (i = j)) as [-> | Hne].
      * rewrite list_lookup_alter_eq, Hi in Hj. by simplify_eq/=.
      * rewrite list_lookup_alter_ne in Hj by done.
        pose proof (Hinv j x Hj Hx2) as Hbound. congruence.
Qed.
End ChartFacts.

Lemma at_most_one_live_chart_witness :
  let cs : gset string := {["spending-chart"]} in
  let data := CategoryBreakdown (num := Z) (Some ["Food"]) (Some [1250%Z]) in
  let call := PieCall "spending-chart" "Spending by Category" data in
  let d := callCharts [call] (pageLoaded cs) in
  (length (liveOn "spending-chart" d) <= 1)%nat
  /\ chartInstances (exec (callChart call) d) !! 0%nat
     = Some (Chart "spending-chart" pie ["Food"] [("", [1250%Z])] true).
Proof.
  intros cs data call d.
  destruct (at_most_one_live_chart cs [call]) as [Hone Hre].
  split; [apply Hone |].
  refine (proj1 (Hre call 0%nat (Chart "spending-chart" pie ["Food"] [("", [1250%Z])] false)
                  _ _ _)).
  - apply elem_of_singleton. reflexivity.
  - vm_compute. reflexivity.
  - vm_compute. reflexivity.
Defined.

(** *** Initialization *)

Section InitFacts.
Context {num : Type} `{JSNumber num}.
Variable LocalTZA : Z.
Variable monthLong : Z -> string.
Local Abbreviation dashboard := (dashboard num).
Local Abbreviation M := (M num).

Lemma ok_exec {A} (m : M A) (d : dashboard) (a : A) :
  fst (m d) = Ok a -> m d = (Ok a, exec m d).
Proof. unfold exec. destruct (m d) as [r d']. simpl. by intros ->. Qed.

Lemma bind_ok {A B} (m : M A) (k : A -> M B) (d : dashboard) (a : A) :
  fst (m d) = Ok a -> bind m k d = k a (exec m d).
Proof. intros Hm. unfold bind. by rewrite (ok_exec m d a Hm). Qed.

Ltac run_loader :=
  unfold exec, loadSummary, loadCharts, loadCalendar, loadRecentTransactions,
    renderTransactions, createPieChart, createLineChart, destroyExisting, bindNew,
    showLoading, testConnection, setTiles, dollars,
    tryCatch, bind, fetchData, gets, modify, ret, throw;
  cbn.

(** The summary step never throws, writes the four tiles and nothing else
    on the page; what it writes depends on the answer of [/summary] only. *)
Lemma loadSummary_frame (sv : server num) (d : dashboard) :
  fst (loadSummary sv d) = Ok tt
  /\ canvases (exec (loadSummary sv) d) = canvases d
  /\ charts (exec (loadSummary sv) d) = charts d
  /\ chartInstances (exec (loadSummary sv) d) = chartInstances d
  /\ calendarRegion (exec (loadSummary sv) d) = calendarRegion d
  /\ recentTransactions (exec (loadSummary sv) d) = recentTransactions d
  /\ errorBanners (exec (loadSummary sv) d) = errorBanners d
  /\ network (exec (loadSummary sv) d)
     = network d ++ [Request GET (apiBase +:+ "/summary") None].
Proof.
  destruct d. run_loader. destruct (sv_summary sv) as [s |]; cbn; [| done].
  destruct (truthy (error s)); cbn; [done |].
  repeat (match goal with |- context [toFixed2 ?v] => destruct (toFixed2 v) end; cbn; [| done]).
  done.
Qed.



(** The chart step never throws and touches the charts only. *)
Lemma loadCharts_frame (sv : server num) (d : dashboard) :
  fst (loadCharts sv d) = Ok tt
  /\ canvases (exec (loadCharts sv) d) = canvases d
  /\ summaryTiles (exec (loadCharts sv) d) = summaryTiles d
  /\ calendarRegion (exec (loadCharts sv) d) = calendarRegion d
  /\ recentTransactions (exec (loadCharts sv) d) = recentTransactions d
  /\ errorBanners (exec (loadCharts sv) d) = errorBanners d
  /\ network (exec (loadCharts sv) d)
     = network d
       ++ Request GET (apiBase +:+ "/spending-by-category") None
          :: match sv_category sv with
             | Body _ =>
                 if bool_decide ("spending-chart" ∈ canvases d)
                 then [Request GET (apiBase +:+ "/monthly-trends") None] else []
             | Failed => []
             end.
Proof.
  destruct d as [cs t ch ci cal rec ban con net]. run_loader.
  destruct (sv_category sv) as [cd |]; cbn; [| done].
  destruct (bool_decide ("spending-chart" ∈ cs)); cbn; [| done].
  destruct (ch !! "spending-chart"); cbn;
    destruct (sv_trends sv); cbn; rewrite <- ?app_assoc; try done;
    destruct (bool_decide ("trends-chart" ∈ cs)); cbn; try done;
    repeat case_match; cbn; rewrite <- ?app_assoc; done.
Qed.




(** The calendar step never throws and writes the calendar only: the
    events of the answer, or no event when the fetch fails. *)
Lemma loadCalendar_frame (sv : server num) (now : Z) (d : dashboard) :
  let d' := exec (loadCalendar LocalTZA monthLong sv now) d in
  fst (loadCalendar LocalTZA monthLong sv now d) = Ok tt
  /\ canvases d' = canvases d
  /\ summaryTiles d' = summaryTiles d
  /\ charts d' = charts d
  /\ chartInstances d' = chartInstances d
  /\ recentTransactions d' = recentTransactions d
  /\ errorBanners d' = errorBanners d
  /\ network d' = network d ++ [Request GET (apiBase +:+ "/calendar-data") None]
  /\ calendarRegion d'
     = Some (renderCalendar LocalTZA monthLong now
               match sv_calendar sv with Body events => events | Failed => [] end).
Proof. destruct d. run_loader. destruct (sv_calendar sv); cbn; done. Qed.

(** The transaction step never throws and writes the list only: one item
    per transaction, or the placeholder when there is none or the fetch
    fails. *)
Lemma loadRecentTransactions_frame (sv : server num) (d : dashboard) :
  let d' := exec (loadRecentTransactions sv) d in
  fst (loadRecentTransactions sv d) = Ok tt
  /\ canvases d' = canvases d
  /\ summaryTiles d' = summaryTiles d
  /\ charts d' = charts d
  /\ chartInstances d' = chartInstances d
  /\ calendarRegion d' = calendarRegion d
  /\ errorBanners d' = errorBanners d
  /\ network d' = network d ++ [Request GET (apiBase +:+ "/recent-transactions") None]
  /\ recentTransactions d'
     = match sv_recent sv with
       | Body (t :: ts) => transactionItem <$> (t :: ts)
       | _ => [NoTransactionsFound]
       end.
Proof.
  destruct d. run_loader. destruct (sv_recent sv) as [[| t ts] |]; cbn; done.
Qed.

Lemma start_frame (sv : server num) (d : dashboard) :
  sv_test sv = Body tt ->
  let d' := exec (testConnection sv) (exec showLoading d) in
  fst (showLoading d) = Ok tt
  /\ fst (testConnection sv (exec showLoading d)) = Ok tt
  /\ canvases d' = canvases d
  /\ charts d' = charts d
  /\ chartInstances d' = chartInstances d
  /\ calendarRegion d' = calendarRegion d
  /\ recentTransactions d' = recentTransactions d
  /\ errorBanners d' = errorBanners d
  /\ network d' = network d ++ [Request GET (apiBase +:+ "/test") None].
Proof. intros Ht. destruct d. run_loader. rewrite Ht. cbn. done. Qed.

(** With the server reachable, [init] is its five steps one after the
    other and its handler is never entered. *)
Lemma init_steps (sv : server num) (now : Z) (d : dashboard) :
  sv_test sv = Body tt ->
  init LocalTZA monthLong sv now d
  = (Ok tt,
     exec (loadRecentTransactions sv)
       (exec (loadCalendar LocalTZA monthLong sv now)
          (exec (loadCharts sv)
             (exec (loadSummary sv)
                (exec (testConnection sv) (exec showLoading d)))))).
Proof.
  intros Ht.
  destruct (start_frame sv d Ht) as (H0 & H0' & _).
  set (d1 := exec (testConnection sv) (exec showLoading d)) in *.
  destruct (loadSummary_frame sv d1) as (H1 & _).
  set (d2 := exec (loadSummary sv) d1) in *.
  destruct (loadCharts_frame sv d2) as (H2 & _).
  set (d3 := exec (loadCharts sv) d2) in *.
  destruct (loadCalendar_frame sv now d3) as (H3 & _).
  set (d4 := exec (loadCalendar LocalTZA monthLong sv now) d3) in *.
  destruct (loadRecentTransactions_frame sv d4) as (H4 & _).
  unfold init, tryCatch.
  rewrite (bind_ok _ _ _ _ H0), (bind_ok _ _ _ _ H0').
  fold d1. rewrite (bind_ok _ _ _ _ H1). fold d2.
  rewrite (bind_ok _ _ _ _ H2). fold d3.
  rewrite (bind_ok _ _ _ _ H3). fold d4.
  by rewrite (ok_exec _ _ _ H4).
Qed.





End InitFacts.

(** ** The transaction form *)

Section SelectFacts.
Implicit Types (s : select) (o : optionEl).

Lemma select_value_insertBeforeLast o s :
  select_value (insertBeforeLast o s) = op_value o.
Proof.
  unfold select_value, insertBeforeLast. cbn.
  rewrite lookup_app_r by (rewrite length_take; lia).
  rewrite length_take.
  replace (pred (length (sel_options s)) - pred (length (sel_options s))
             `min` length (sel_options s))%nat with 0%nat by lia.
  done.
Qed.

Lemma indexOfValue_Some v (l : list optionEl) i :
  indexOfValue v l = Some i -> exists o, l !! i = Some o /\ op_value o = v.
Proof.
  revert i. induction l as [| o l IH]; intros i; cbn; [done |].
  case_bool_decide as Hv.
  - intros [= <-]. eauto.
  - destruct (indexOfValue v l) as [j |]; cbn; [| done].
    intros [= <-]. by apply IH.
Qed.

Lemma select_value_set_value v s :
  select_value (set_value v s) = v \/ select_value (set_value v s) = "".
Proof.
  unfold select_value, set_value. cbn.
  destruct (indexOfValue v (sel_options s)) as [i |] eqn:E; [| by right].
  apply indexOfValue_Some in E as (o & -> & <-). by left.
Qed.

Lemma select_value_set_empty s : select_value (set_value "" s) = "".
Proof. by destruct (select_value_set_value "" s). Qed.

(** What the select holds after the change handler, case by case. *)
Lemma onCategoryChange_value (answer : option string) s :
  select_value (onCategoryChange answer s)
  = if bool_decide (select_value s = sentinel) then
      match answer with
      | Some a => trim a
      | None => ""
      end
    else select_value s.
Proof.
  unfold onCategoryChange. case_bool_decide as Hs; [| done].
  destruct answer as [a |]; [| apply select_value_set_empty].
  case_bool_decide as Ha; cbn.
  - case_bool_decide as Ht; cbn.
    + by rewrite select_value_set_empty, Ht.
    + apply select_value_insertBeforeLast.
  - subst a. apply select_value_set_empty.
Qed.

Lemma last_insertBeforeLast o s x :
  last (sel_options s) = Some x -> last (sel_options (insertBeforeLast o s)) = Some x.
Proof.
  unfold insertBeforeLast. cbn. intros Hl.
  destruct (sel_options s) as [| y l] using rev_ind; [done |].
  rewrite last_snoc in Hl. injection Hl as ->.
  rewrite length_app. cbn.
  replace (pred (length l + 1)) with (length l) by lia.
  rewrite take_app_length, drop_app_length.
  replace (l ++ o :: [x]) with ((l ++ [o]) ++ [x]) by (by rewrite <- app_assoc).
  apply last_snoc.
Qed.

Lemma last_onCategoryChange answer s x :
  last (sel_options s) = Some x -> last (sel_options (onCategoryChange answer s)) = Some x.
Proof.
  intros Hl. unfold onCategoryChange. repeat case_match; try done.
  by apply last_insertBeforeLast.
Qed.

Lemma last_populate categories : last (sel_options (populate categories)) = Some sentinelOption.
Proof.
  unfold populate. cbn [sel_options].
  by rewrite app_comm_cons, last_snoc.
Qed.

Lemma last_selectStep s e :
  fromList e = true ->
  last (sel_options s) = Some sentinelOption ->
  last (sel_options (selectStep s e)) = Some sentinelOption.
Proof.
  intros He Hl. destruct e as [cats | | i answer |]; cbn; try done.
  - apply last_populate.
  - apply last_onCategoryChange. unfold pick. by case_bool_decide.
Qed.

(** Where the new option goes: between the last option and those before. *)
Lemma insertBeforeLast_snoc o s (front : list optionEl) (x : optionEl) :
  sel_options s = front ++ [x] ->
  sel_options (insertBeforeLast o s) = front ++ [o; x].
Proof.
  intros Hs. unfold insertBeforeLast. cbn. rewrite Hs, length_app. cbn.
  replace (pred (length front + 1)) with (length front) by lia.
  by rewrite take_app_length, drop_app_length.
Qed.

(** C10, as the code has it.  Once the list is loaded from an answer that
    carries an array of categories, the "+ Add New Category" option is the
    last option of the select, and it stays the last through every further
    such load, every pick with any answer to the prompt, and every reset;
    and a category the user creates goes immediately before the last
    option, the options before it keeping their places. *)
Theorem sentinel_stays_last :
  (forall (s : select) (categories : list string) (events : list selectEvent),
     forallb fromList events = true ->
     last (sel_options (foldl selectStep s (Loaded categories :: events)))
     = Some sentinelOption)
  /\ (forall (s : select) (a : string) (front : list optionEl) (x : optionEl),
        sel_options s = front ++ [x] ->
        select_value s = sentinel ->
        trim a <> "" ->
        sel_options (onCategoryChange (Some a) s)
        = front ++ [OptionEl (trim a) (trim a); x]).
Proof.
  split.
  - intros s categories events. cbn [foldl selectStep].
    generalize (last_populate categories). generalize (populate categories). clear s.
    induction events as [| e events IH]; intros s Hs Hev; [done |].
    cbn in Hev. apply andb_true_iff in Hev as [He Hev].
    cbn [foldl]. apply IH; [by apply last_selectStep | done].
  - intros s a front x Hs Hv Ht. unfold onCategoryChange.
    rewrite bool_decide_eq_true_2 by done.
    assert (Ha : a <> "") by (intros ->; by apply Ht).
    rewrite bool_decide_eq_true_2, bool_decide_eq_false_2 by done. cbn.
    by apply insertBeforeLast_snoc.
Qed.
End SelectFacts.

Section FormFacts.
Implicit Types (p : formPage).

(** C6.  With the sentinel as the category the handler stops before the
    request: the network log is as it was, the button untouched, and the
    message element, when the page has one, shows the error text with the
    [error] class. *)
Theorem submit_sentinel_rejected p (sel : select) (date : string) :
  categorySelect p = Some sel -> dateInput p = Some date ->
  select_value sel = sentinel ->
  exists p', submitStart p = Some (p', false)
    /\ formNetwork p' = formNetwork p
    /\ submitBtn p' = submitBtn p
    /\ (forall m, message p = Some m ->
          message p' = Some (MessageDiv "Please select a valid category" "message error")).
Proof.
  intros Hc Hd Hv. unfold submitStart. rewrite Hc, Hd.
  rewrite bool_decide_eq_true_2 by done.
  eexists. split; [reflexivity |].
  unfold showMessage. destruct (message p) as [m |] eqn:Hm; cbn; repeat split; try done.
Qed.

(** C8, as the code has it.  When the request is issued the submit button
    is disabled and shows the busy label; whatever comes back, the handler
    ends with the button enabled and labelled "Add Transaction", whatever
    its label [b] was before. *)
Theorem submit_button_reenabled p p' (b : button) (LocalTZA now : Z) (a : appendReply) :
  submitBtn p = Some b ->
  submitStart p = Some (p', true) ->
  submitBtn p' = Some (Button true addingLabel)
  /\ submitBtn (submitFinish LocalTZA now a p') = Some (Button false "Add Transaction").
Proof.
  intros Hb Hs. unfold submitStart in Hs.
  destruct p as [ti [sel |] am [date |] sb ms tm co nw]; cbn in *; try done.
  subst sb. case_bool_decide; [done |]. injection Hs as <-.
  split; [done |].
  unfold submitFinish, showMessage, setTodayDate, resetForm.
  destruct a as [| | [|] text]; cbn; destruct ms; cbn; done.
Qed.
End FormFacts.

Section ValidationFacts.
Implicit Types (p : formPage) (s : select).

(** C9, as the code has it.  After the change handler the value of the
    select is the sentinel only if the name typed into the prompt itself
    trims to the sentinel.  Otherwise a pick of the sentinel leaves the
    trimmed name, or the empty string when the prompt was dismissed or left
    blank; and the empty string passes the check of the submit handler, so
    that the append request is issued with an empty category. *)
Theorem change_handler_clears_sentinel :
  (forall (answer : option string) s,
     (forall a, answer = Some a -> trim a <> sentinel) ->
     select_value (onCategoryChange answer s) <> sentinel
     /\ (select_value s = sentinel ->
         select_value (onCategoryChange answer s)
         = match answer with Some a => trim a | None => "" end))
  /\ (forall p s (date : string),
        categorySelect p = Some s -> dateInput p = Some date ->
        select_value s = "" ->
        exists p', submitStart p = Some (p', true)
          /\ formNetwork p'
             = formNetwork p
               ++ [Request POST appendUrl
                     (Some (trim (titleInput p), "", amountInput p, date))]).
Proof.
  split.
  - intros answer s Ha. rewrite onCategoryChange_value.
    case_bool_decide as Hs; [| done].
    split; [| done]. destruct answer as [a |]; [by apply Ha | done].
  - intros p s date Hc Hd Hv. unfold submitStart. rewrite Hc, Hd, Hv.
    rewrite bool_decide_eq_false_2 by done.
    eexists. split; [reflexivity |]. by destruct (submitBtn p).
Qed.
End ValidationFacts.

(** C9 as stated fails: a user who picks "+ Add New Category" and types
    NEW_CATEGORY into the prompt leaves the select on the sentinel. *)
Lemma change_handler_sentinel_typed :
  select_value sentinelPicked = sentinel
  /\ select_value (onCategoryChange (Some "NEW_CATEGORY") sentinelPicked) = sentinel.
Proof. split; vm_compute; reflexivity. Qed.

(** C10 as stated fails for a load whose answer reports success without an
    array of categories: line 350 has reset the list to the placeholder
    when [forEach] throws, and the sentinel is not appended. *)
Lemma sentinel_lost_without_list :
  last (sel_options (foldl selectStep (populate ["Food"]) [LoadedWithoutList]))
  = Some placeholderOption
  /\ categorySelect (loadCategories (Body (true, None)) (samplePage (populate ["Food"])))
     = Some placeholderOnly.
Proof. split; reflexivity. Qed.

Lemma sentinel_stays_last_witness :
  last (sel_options (foldl selectStep placeholderOnly
                       [Loaded ["Food"]; Picked 2 (Some " Rent "); WasReset]))
  = Some sentinelOption
  /\ sel_options (onCategoryChange (Some " Rent ") (pick 2 (populate ["Food"])))
     = [placeholderOption; OptionEl "Food" "Food"; OptionEl "Rent" "Rent"; sentinelOption].
Proof.
  destruct sentinel_stays_last as [Hlast Hins].
  split.
  - exact (Hlast placeholderOnly ["Food"] [Picked 2 (Some " Rent "); WasReset] eq_refl).
  - refine (Hins (pick 2 (populate ["Food"])) " Rent "
              [placeholderOption; OptionEl "Food" "Food"] sentinelOption _ _ _).
    + reflexivity.
    + reflexivity.
    + vm_compute. discriminate.
Defined.

Lemma change_handler_clears_sentinel_witness :
  select_value (onCategoryChange (Some "  Rent ") sentinelPicked) = "Rent"
  /\ exists p', submitStart (samplePage (populate [])) = Some (p', true)
       /\ formNetwork p'
          = [Request POST appendUrl (Some ("Coffee", "", "-4.50", "2024-03-15"))].
Proof.
  destruct change_handler_clears_sentinel as [Hvalue Hsubmit].
  split.
  - refine (proj2 (Hvalue (Some "  Rent ") sentinelPicked _) _).
    + intros a [= <-]. vm_compute. discriminate.
    + vm_compute. reflexivity.
  - refine (Hsubmit (samplePage (populate [])) (populate []) "2024-03-15" _ _ _);
      vm_compute; reflexivity.
Defined.

Lemma submit_sentinel_rejected_witness :
  exists p', submitStart (samplePage sentinelPicked) = Some (p', false)
    /\ formNetwork p' = []
    /\ submitBtn p' = Some (Button false "Add Transaction")
    /\ (forall m, message (samplePage sentinelPicked) = Some m ->
          message p' = Some (MessageDiv "Please select a valid category" "message error")).
Proof.
  refine (submit_sentinel_rejected (samplePage sentinelPicked) sentinelPicked "2024-03-15" _ _ _);
    vm_compute; reflexivity.
Defined.

(** C8 as stated fails for the label: the handler writes the literal
    "Add Transaction" and keeps no copy of the label it replaces, so a
    button labelled "Save" is not given its label back. *)
Lemma submit_button_label_not_restored :
  submitBtn savePage = Some (Button false "Save")
  /\ exists p', submitStart savePage = Some (p', true)
       /\ submitBtn (submitFinish 0 noon20March2024 (Reply true "Added") p')
          = Some (Button false "Add Transaction")
       /\ submitBtn (submitFinish 0 noon20March2024 (Reply true "Added") p')
          <> submitBtn savePage.
Proof.
  split; [reflexivity |]. eexists. split; [vm_compute; reflexivity |].
  split; [vm_compute; reflexivity |]. vm_compute. discriminate.
Qed.

Lemma submit_button_reenabled_witness :
  exists p', submitStart (samplePage (populate [])) = Some (p', true)
    /\ submitBtn p' = Some (Button true addingLabel)
    /\ submitBtn (submitFinish 0 noon20March2024 TransportError p')
       = Some (Button false "Add Transaction").
Proof.
  eexists. split; [vm_compute; reflexivity |].
  refine (submit_button_reenabled (samplePage (populate [])) _
            (Button false "Add Transaction") 0 noon20March2024 TransportError _ _);
    vm_compute; reflexivity.
Defined.

(** ** Requests *)

Lemma length_append (a b : string) :
  String.length (a +:+ b) = (String.length a + String.length b)%nat.
Proof. induction a as [| c a IH]; simpl; [done | by f_equal]. Qed.

Lemma substring_0_0 (s : string) : String.substring 0 0 s = "".
Proof. by destruct s. Qed.

(** A URL made of a base and an endpoint determines the base. *)
Lemma base_of_url (u base endpoint : string) :
  u = base +:+ endpoint ->
  base = String.substring 0 (String.length u - String.length endpoint) u.
Proof.
  intros ->. rewrite length_append.
  replace (String.length base + String.length endpoint - String.length endpoint)%nat
    with (String.length base) by lia.
  induction base as [| c base IH]; simpl; [apply eq_sym, substring_0_0 | by f_equal].
Qed.

(** C3 (the code departs from it).  While the page loads and a transaction
    is submitted, the dashboard asks port 3000 for its five views and the
    form asks port 5000 for the categories and the append: no base has all
    of these URLs as its endpoints. *)
Theorem requests_under_two_bases :
  pageLoadUrls
  = ["http://localhost:3000/api/test";
     "http://localhost:3000/api/summary";
     "http://localhost:3000/api/spending-by-category";
     "http://localhost:3000/api/monthly-trends";
     "http://localhost:3000/api/calendar-data";
     "http://localhost:3000/api/recent-transactions";
     "http://localhost:5000/api/categories";
     "http://localhost:5000/api/append"]
  /\ ~ exists base, underOneBase base pageLoadUrls.
Proof.
  assert (E : pageLoadUrls
              = ["http://localhost:3000/api/test";
                 "http://localhost:3000/api/summary";
                 "http://localhost:3000/api/spending-by-category";
                 "http://localhost:3000/api/monthly-trends";
                 "http://localhost:3000/api/calendar-data";
                 "http://localhost:3000/api/recent-transactions";
                 "http://localhost:5000/api/categories";
                 "http://localhost:5000/api/append"])
    by (vm_compute; reflexivity).
  split; [exact E |]. rewrite E. intros [base Hall].
  unfold underOneBase in Hall.
  pose proof (proj1 (Forall_forall _ _) Hall) as Hin.
  assert (H1 := Hin "http://localhost:3000/api/test" ltac:(set_unfold; tauto)).
  assert (H2 := Hin "http://localhost:5000/api/categories" ltac:(set_unfold; tauto)).
  clear Hall Hin E.
  apply Exists_exists in H1 as (e1 & Hi1 & He1).
  apply base_of_url in He1.
  unfold endpoints in Hi1. set_unfold in Hi1.
  assert (Hno : forall b, b ∈ (fun e => String.substring 0
                     (String.length "http://localhost:3000/api/test" - String.length e)
                     "http://localhost:3000/api/test") <$> endpoints ->
                ~ Exists (fun e => "http://localhost:5000/api/categories" = b +:+ e) endpoints).
  { intros b Hb. apply list_elem_of_fmap in Hb as (e & -> & He).
    unfold endpoints in He. set_unfold in He.
    intros Hex. apply Exists_exists in Hex as (e2 & Hi2 & He2).
    unfold endpoints in Hi2. set_unfold in Hi2.
    repeat (destruct He as [-> | He]); try (destruct He);
      repeat (destruct Hi2 as [-> | Hi2]); try (destruct Hi2); vm_compute in He2; discriminate. }
  apply (Hno base); [| done].
  rewrite He1. apply list_elem_of_fmap. exists e1. split; [done |].
  unfold endpoints. set_unfold. tauto.
Qed.

Lemma loadSummary_absent_fields_default_witness :
  let t := summaryTiles (exec (loadSummary (H := Decimal.number) answering)
                           (pageLoaded bothCanvases)) in
  total_expenses t = "$0.00" /\ net_amount t = "$0.00".
Proof.
  destruct (loadSummary_absent_fields_default (H := Decimal.number) answering
              (Summary JUndefined (JNum 3%Z) (JNum 120000%Z) JUndefined JUndefined)
              (pageLoaded bothCanvases) eq_refl) as (_ & _ & He & Hn).
  split; [apply He | apply Hn]; reflexivity.
Defined.



(** * Further properties of the dashboard *)

Section MoreDashboardFacts.
Context {num : Type} `{JSNumber num}.
Variable LocalTZA : Z.
Variable monthLong : Z -> string.
Local Abbreviation dashboard := (dashboard num).

Ltac run_steps :=
  unfold exec, init, reloadData, loadSummary, loadCharts, loadCalendar,
    loadRecentTransactions, renderTransactions, createPieChart, createLineChart,
    destroyExisting, bindNew, showLoading, showError, testConnection, setTiles, dollars,
    tryCatch, bind, fetchData, gets, modify, ret, throw;
  cbn.

(** X1.  When the connectivity test fails [init] stops there: only [/test]
    is requested, one banner is put on top of the page, the four tiles keep
    the text "Loading..." and charts, calendar and list are not touched. *)
Theorem init_unreachable_server (sv : server num) (now : Z) (d : dashboard) :
  sv_test sv = Failed ->
  let d' := exec (init LocalTZA monthLong sv now) d in
  fst (init LocalTZA monthLong sv now d) = Ok tt
  /\ network d' = network d ++ [Request GET (apiBase +:+ "/test") None]
  /\ errorBanners d'
     = "Failed to load dashboard data. Please check if the server is running."
       :: errorBanners d
  /\ summaryTiles d' = Tiles "Loading..." "Loading..." "Loading..." "Loading..."
  /\ charts d' = charts d
  /\ chartInstances d' = chartInstances d
  /\ calendarRegion d' = calendarRegion d
  /\ recentTransactions d' = recentTransactions d.
Proof. intros Ht. destruct d. run_steps. rewrite Ht. cbn. done. Qed.

(** X2.  The summary tiles are written all or none: if the answer carries a
    truthy [error], or one of the three amounts is present, truthy and not a
    number, then all four tiles show the zero defaults, the count
    included. *)
Theorem loadSummary_bad_field_resets_all (sv : server num) (s : summary num) (d : dashboard) :
  sv_summary sv = Body s ->
  truthy (error s) = true
  \/ (exists v, v ∈ [totalDeposits s; totalWithdrawals s; netAmount s]
                /\ truthy v = true /\ toFixed2 v = None) ->
  summaryTiles (exec (loadSummary sv) d) = Tiles "0" "$0.00" "$0.00" "$0.00".
Proof.
  intros Hsv Hbad. destruct d. run_steps. rewrite Hsv. cbn.
  destruct (truthy (error s)) eqn:He; cbn; [done |].
  destruct Hbad as [? | (v & Hv & Htr & Hfx)]; [done |].
  assert (Hor : orElse v zero = v) by (unfold orElse; by rewrite Htr).
  set_unfold in Hv.
  destruct (toFixed2 (orElse (totalDeposits s) zero)) eqn:E1; cbn; [| done].
  destruct (toFixed2 (orElse (totalWithdrawals s) zero)) eqn:E2; cbn; [| done].
  destruct (toFixed2 (orElse (netAmount s) zero)) eqn:E3; cbn; [| done].
  destruct Hv as [-> | [-> | [-> | []]]]; congruence.
Qed.

(** X3.  A well-formed answer is rendered field by field: the count as
    text, the three amounts with two decimals behind a dollar sign; a field
    that is absent, null, zero, false or the empty string counts as zero. *)
Theorem loadSummary_renders (sv : server num) (s : summary num) (d : dashboard)
    (deposits withdrawals net : num) :
  sv_summary sv = Body s ->
  truthy (error s) = false ->
  orElse (totalDeposits s) zero = JNum deposits ->
  orElse (totalWithdrawals s) zero = JNum withdrawals ->
  orElse (netAmount s) zero = JNum net ->
  summaryTiles (exec (loadSummary sv) d)
  = Tiles (textContentOf (orElse (totalTransactions s) zero))
          ("$" +:+ num_toFixed2 deposits)
          ("$" +:+ num_toFixed2 withdrawals)
          ("$" +:+ num_toFixed2 net)
  /\ console (exec (loadSummary sv) d) = console d.
Proof.
  intros Hsv He H1 H2 H3. destruct d. run_steps. rewrite Hsv. cbn.
  rewrite He. cbn. rewrite H1. cbn. rewrite H2. cbn. rewrite H3. cbn. done.
Qed.

(** X4.  A chart method called for a canvas the page does not have throws
    before anything is changed: no chart is destroyed, none is created. *)
Theorem chart_without_canvas (call : chartCall) (d : dashboard) :
  canvasOf call ∉ canvases d ->
  exists e, callChart call d = (Throw e, d).
Proof.
  intros Hc. destruct call as [canvasId title data | canvasId title data];
    cbn in *; unfold createPieChart, createLineChart, bind;
    destruct (destroyExisting_throws canvasId d Hc) as [e ->]; eauto.
Qed.

(** X5.  On a canvas of the page a chart method never throws.  The chart it
    binds has the labels and series of the answer, empty where the answer
    has none, and every chart of another canvas is left as it was. *)
Theorem chart_bound_with_defaults (canvasId title : string) (data : categoryBreakdown num)
    (d : dashboard) :
  canvasId ∈ canvases d ->
  let d' := exec (createPieChart canvasId title data) d in
  fst (createPieChart canvasId title data d) = Ok tt
  /\ (exists i, charts d' !! canvasId = Some i
        /\ chartInstances d' !! i
           = Some (Chart canvasId pie (default [] (cb_labels data))
                     [("", default [] (cb_data data))] false))
  /\ (forall other, other <> canvasId -> charts d' !! other = charts d !! other)
  /\ (forall i c, chartInstances d !! i = Some c -> ch_canvas c <> canvasId ->
        charts d !! canvasId <> Some i ->
        chartInstances d' !! i = Some c).
Proof.
  intros Hc d'. subst d'. unfold createPieChart, exec, bind.
  rewrite destroyExisting_run by done. unfold bindNew, modify. cbn [fst snd].
  split; [done |].
  destruct (charts d !! canvasId) as [j |] eqn:Hb; cbn [charts chartInstances set_charts].
  - split; [| split].
    + eexists. split; [apply lookup_insert_eq |].
      by rewrite lookup_app_r, Nat.sub_diag.
    + intros other Hne. by rewrite lookup_insert_ne.
    + intros i c Hi _ Hij.
      rewrite lookup_app_l by (rewrite length_alter; by eapply lookup_lt_Some).
      rewrite list_lookup_alter_ne; [done | congruence].
  - split; [| split].
    + eexists. split; [apply lookup_insert_eq |].
      by rewrite lookup_app_r, Nat.sub_diag.
    + intros other Hne. by rewrite lookup_insert_ne.
    + intros i c Hi _ _. rewrite lookup_app_l; [done | by eapply lookup_lt_Some].
Qed.

(** X6.  The two charts are loaded in one guarded block: when the category
    fetch fails the trends are not even requested and no chart is touched;
    when only the trends fetch fails the category chart is bound and live
    all the same. *)
Theorem loadCharts_second_depends_on_first (sv : server num) (d : dashboard) :
  (sv_category sv = Failed ->
     network (exec (loadCharts sv) d)
     = network d ++ [Request GET (apiBase +:+ "/spending-by-category") None]
     /\ charts (exec (loadCharts sv) d) = charts d
     /\ chartInstances (exec (loadCharts sv) d) = chartInstances d)
  /\ (forall data, sv_category sv = Body data -> sv_trends sv = Failed ->
        "spending-chart" ∈ canvases d ->
        exists i c, charts (exec (loadCharts sv) d) !! "spending-chart" = Some i
          /\ chartInstances (exec (loadCharts sv) d) !! i = Some c
          /\ ch_type c = pie /\ ch_destroyed c = false).
Proof.
  split.
  - intros Hf. destruct d. run_steps. by rewrite Hf.
  - intros data Hb Hf Hc. destruct d as [cs t ch ci cal rec ban con net]. cbn in Hc.
    run_steps. rewrite Hb, Hf. cbn. rewrite bool_decide_eq_true_2 by done. cbn.
    destruct (ch !! "spending-chart"); cbn;
      (eexists _, _; split; [apply lookup_insert_eq |]);
      rewrite lookup_app_r, Nat.sub_diag by done; done.
Qed.

(** *** Repeated loads *)

Lemma liveAreBound_same_charts (d1 d2 : dashboard) :
  charts d1 = charts d2 -> chartInstances d1 = chartInstances d2 ->
  liveAreBound d1 -> liveAreBound d2.
Proof. unfold liveAreBound. intros <- <-. done. Qed.

Lemma preserves_ret {A} (P : dashboard -> Prop) (a : A) : preserves P (ret a).
Proof. by intros d. Qed.

Lemma preserves_throw {A} (P : dashboard -> Prop) e : preserves P (throw (A := A) e).
Proof. by intros d. Qed.

Lemma preserves_modify (P : dashboard -> Prop) (f : dashboard -> dashboard) :
  (forall d, P d -> P (f d)) -> preserves P (modify f).
Proof. intros Hf d. apply Hf. Qed.

Lemma preserves_bind {A B} (P : dashboard -> Prop) (m : M num A) (k : A -> M num B) :
  preserves P m -> (forall a, preserves P (k a)) -> preserves P (bind m k).
Proof.
  intros Hm Hk d Hd. unfold bind. specialize (Hm d Hd).
  destruct (m d) as [[a | e] d']; cbn in *; [by apply Hk | done].
Qed.

Lemma preserves_tryCatch {A} (P : dashboard -> Prop) (m : M num A) (h : string -> M num A) :
  preserves P m -> (forall e, preserves P (h e)) -> preserves P (tryCatch m h).
Proof.
  intros Hm Hh d Hd. unfold tryCatch. specialize (Hm d Hd).
  destruct (m d) as [[a | e] d']; cbn in *; [done | by apply Hh].
Qed.

Lemma preserves_fetchData {A} (P : dashboard -> Prop) endpoint (r : response A) :
  (forall rq d, P d -> P (add_request rq d)) -> preserves P (fetchData endpoint r).
Proof.
  intros Hr. unfold fetchData. apply preserves_bind; [apply preserves_modify, Hr |].
  intros _. destruct r; [apply preserves_ret | apply preserves_throw].
Qed.

Lemma liveAreBound_add_request rq (d : dashboard) : liveAreBound d -> liveAreBound (add_request rq d).
Proof. intros Hd. eapply liveAreBound_same_charts; [| | exact Hd]; by destruct d. Qed.

Lemma liveAreBound_add_console m (d : dashboard) : liveAreBound d -> liveAreBound (add_console m d).
Proof. intros Hd. eapply liveAreBound_same_charts; [| | exact Hd]; by destruct d. Qed.

Lemma liveAreBound_add_banner m (d : dashboard) : liveAreBound d -> liveAreBound (add_banner m d).
Proof. intros Hd. eapply liveAreBound_same_charts; [| | exact Hd]; by destruct d. Qed.

Lemma liveAreBound_set_tiles t (d : dashboard) : liveAreBound d -> liveAreBound (set_tiles t d).
Proof. intros Hd. eapply liveAreBound_same_charts; [| | exact Hd]; by destruct d. Qed.

Lemma liveAreBound_set_calendar c (d : dashboard) : liveAreBound d -> liveAreBound (set_calendar c d).
Proof. intros Hd. eapply liveAreBound_same_charts; [| | exact Hd]; by destruct d. Qed.

Lemma liveAreBound_set_recent r (d : dashboard) : liveAreBound d -> liveAreBound (set_recent r d).
Proof. intros Hd. eapply liveAreBound_same_charts; [| | exact Hd]; by destruct d. Qed.

(** Steps that do not touch the charts keep the invariant of the charts. *)
Ltac keep_charts :=
  repeat first
    [ apply preserves_tryCatch | apply preserves_bind
    | match goal with |- forall _, preserves _ _ => intros ? end
    | apply preserves_fetchData; intros ? ?; apply liveAreBound_add_request
    | apply preserves_ret | apply preserves_throw
    | apply preserves_modify; intros ?;
      first [ apply liveAreBound_add_request | apply liveAreBound_add_console
            | apply liveAreBound_add_banner | apply liveAreBound_set_tiles
            | apply liveAreBound_set_calendar | apply liveAreBound_set_recent ]
    | progress case_match ].

Lemma createPieChart_liveAreBound canvasId title data :
  preserves liveAreBound (createPieChart (num := num) canvasId title data).
Proof. intros d Hd. by apply (rebind_liveAreBound canvasId). Qed.

Lemma createLineChart_liveAreBound canvasId title data :
  preserves liveAreBound (createLineChart (num := num) canvasId title data).
Proof. intros d Hd. by apply (rebind_liveAreBound canvasId). Qed.

Lemma loadCharts_liveAreBound (sv : server num) : preserves liveAreBound (loadCharts sv).
Proof.
  unfold loadCharts.
  apply preserves_tryCatch; [| keep_charts].
  apply preserves_bind; [keep_charts |]. intros cdata.
  apply preserves_bind; [apply createPieChart_liveAreBound |]. intros _.
  apply preserves_bind; [keep_charts |]. intros tdata.
  apply createLineChart_liveAreBound.
Qed.

Lemma init_liveAreBound (sv : server num) (now : Z) :
  preserves liveAreBound (init LocalTZA monthLong sv now).
Proof.
  unfold init.
  apply preserves_tryCatch; [| keep_charts].
  apply preserves_bind; [unfold showLoading, setTiles; keep_charts |]. intros _.
  apply preserves_bind; [unfold testConnection; keep_charts |]. intros _.
  apply preserves_bind; [unfold loadSummary, setTiles, dollars; keep_charts |]. intros _.
  apply preserves_bind; [apply loadCharts_liveAreBound |]. intros _.
  apply preserves_bind; [unfold loadCalendar; keep_charts |]. intros _.
  unfold loadRecentTransactions, renderTransactions. keep_charts.
Qed.

Lemma reloadData_liveAreBound (r : response bool) (sv : server num) (now : Z) :
  preserves liveAreBound (reloadData LocalTZA monthLong r sv now).
Proof.
  unfold reloadData.
  apply preserves_tryCatch; [| keep_charts].
  apply preserves_bind; [keep_charts |]. intros [|]; [| apply preserves_ret].
  apply preserves_bind; [keep_charts |]. intros _. apply init_liveAreBound.
Qed.

(** X7.  However often the dashboard is loaded again, and whatever the
    server answers each time, no canvas has more than one chart that is not
    destroyed. *)
Theorem reloads_leak_no_chart (cs : gset string)
    (runs : list (response bool * server num * Z)) (canvasId : string) :
  (length (liveOn canvasId (reloads LocalTZA monthLong runs (pageLoaded cs))) <= 1)%nat.
Proof.
  apply liveAreBound_at_most_one. generalize (pageLoaded_liveAreBound (num := num) cs).
  generalize (pageLoaded (num := num) cs).
  induction runs as [| [[r sv] now] runs IH]; intros d Hd; [done |].
  cbn. apply IH. by apply reloadData_liveAreBound.
Qed.

(** X8.  [reloadData] never throws, whatever is answered to it and to the
    [init] it may run.  When its request fails or the server does not
    report success, nothing on the page changes and nothing else is
    requested. *)
Theorem reloadData_without_success (r : response bool) (sv : server num) (now : Z)
    (d : dashboard) :
  let d' := exec (reloadData LocalTZA monthLong r sv now) d in
  fst (reloadData LocalTZA monthLong r sv now d) = Ok tt
  /\ (r = Failed \/ r = Body false ->
      network d' = network d ++ [Request GET (apiBase +:+ "/reload-data") None]
      /\ summaryTiles d' = summaryTiles d
      /\ charts d' = charts d /\ chartInstances d' = chartInstances d
      /\ calendarRegion d' = calendarRegion d
      /\ recentTransactions d' = recentTransactions d
      /\ errorBanners d' = errorBanners d).
Proof.
  split.
  - unfold reloadData, tryCatch.
    match goal with |- context [match ?m d with _ => _ end] => destruct (m d) as [[[] | e] d1] end;
      done.
  - intros [-> | ->]; destruct d; run_steps; done.
Qed.
End MoreDashboardFacts.

(** * Further properties of the calendar *)

Section MoreCalendarFacts.
Import JSDate JSDateFacts.
Context {num : Type} `{JSNumber num}.
Variable LocalTZA : Z.
Variable monthLong : Z -> string.
Local Open Scope Z_scope.

Lemma flat_map_split {A B} (f : A -> list B) (g : A -> list B) (l : list A) :
  flat_map (fun a => f a ++ g a) l ≡ₚ flat_map f l ++ flat_map g l.
Proof.
  induction l as [| a l IH]; cbn; [done |].
  rewrite IH. solve_Permutation.
Qed.

Lemma flat_map_all_nil {A B} (f : A -> list B) (l : list A) :
  (forall a, a ∈ l -> f a = []) -> flat_map f l = [].
Proof.
  induction l as [| a l IH]; intros Hf; cbn; [done |].
  rewrite (Hf a) by left. apply IH. intros b Hb. apply Hf. by right.
Qed.

Lemma flat_map_one {A B} `{EqDecision A} (f : A -> list B) (l : list A) (a0 : A) :
  NoDup l -> a0 ∈ l -> (forall a, a ∈ l -> a <> a0 -> f a = []) ->
  flat_map f l = f a0.
Proof.
  induction l as [| a l IH]; intros Hnd Hin Hf; [by apply elem_of_nil in Hin |].
  apply NoDup_cons in Hnd as [Hna Hnd]. cbn.
  destruct (decide (a = a0)) as [-> | Hne].
  - rewrite flat_map_all_nil; [by rewrite app_nil_r |].
    intros b Hb. apply Hf; [by right |]. intros ->. done.
  - rewrite (Hf a) by (done || left). cbn. apply IH; [done | |].
    + apply elem_of_cons in Hin as [-> | ?]; done.
    + intros b Hb. apply Hf. by right.
Qed.

(** The markers of the whole grid are those of the day cells, day by day. *)
Lemma allMarkers_renderCalendar (now : Z) (events : list (event num)) :
  let month := getMonth LocalTZA now in
  let year := getFullYear LocalTZA now in
  ~ (0 <= year <= 99) ->
  allMarkers (calendar_grid (renderCalendar LocalTZA monthLong now events))
  = flat_map (fun d => eventMarker <$> filter (fun e => eventOnDay LocalTZA d month year e) events)
      (seqZ 1 (daysInMonth year month)).
Proof.
  intros month year Hy.
  assert (Hm : 0 <= month <= 11) by apply MonthFromTime_bounds.
  unfold renderCalendar. fold year month. cbn [calendar_grid].
  rewrite getDay_first_of_month, getDate_last_of_month by done.
  unfold allMarkers. rewrite !flat_map_app.
  rewrite (flat_map_all_nil _ (HeaderDay <$> days)), (flat_map_all_nil _ (replicate _ _)).
  - cbn [app]. generalize (seqZ 1 (daysInMonth year month)).
    intros ds. induction ds as [| d ds IH]; cbn; [done | by rewrite IH].
  - intros c Hc. apply elem_of_replicate in Hc as [-> _]. done.
  - intros c Hc. apply list_elem_of_fmap in Hc as (s & -> & _). done.
Qed.

Lemma eventOnDay_split (e : event num) d mo yr :
  eventOnDay LocalTZA d mo yr e
  = inShownMonth LocalTZA mo yr e
    && match Date_parse (ev_date e) with
       | Some t => getDate LocalTZA t =? d
       | None => false
       end.
Proof.
  unfold eventOnDay, inShownMonth. destruct (Date_parse (ev_date e)); [| done].
  destruct (_ =? d), (_ =? mo), (_ =? yr); done.
Qed.

(** X9.  For events dated by valid ISO dates: every event whose date, read
    in the viewer's zone, lies in the month shown has exactly one marker in
    the grid, and no other event has any; the markers of the grid are the
    markers of those events, up to their order. *)
Theorem renderCalendar_each_event_once (now : Z) (events : list (event num)) :
  let month := getMonth LocalTZA now in
  let year := getFullYear LocalTZA now in
  ~ (0 <= year <= 99) ->
  Forall (fun e => is_Some (Date_parse (ev_date e))) events ->
  allMarkers (calendar_grid (renderCalendar LocalTZA monthLong now events))
  ≡ₚ eventMarker <$> filter (fun e => inShownMonth LocalTZA month year e) events.
Proof.
  intros month year Hy _. rewrite allMarkers_renderCalendar by done. fold month year.
  assert (Hm : 0 <= month <= 11) by apply MonthFromTime_bounds.
  induction events as [| e es IH].
  { by rewrite flat_map_all_nil. }
  rewrite filter_cons.
  assert (Hsplit :
    flat_map (fun d => eventMarker <$> filter (fun e0 => eventOnDay LocalTZA d month year e0) (e :: es))
      (seqZ 1 (daysInMonth year month))
    = flat_map (fun d => (if eventOnDay LocalTZA d month year e then [eventMarker e] else [])
                         ++ (eventMarker <$> filter (fun e0 => eventOnDay LocalTZA d month year e0) es))
        (seqZ 1 (daysInMonth year month))).
  { apply flat_map_ext. intros d. rewrite filter_cons.
    destruct (eventOnDay LocalTZA d month year e); by case_decide. }
  rewrite Hsplit, flat_map_split, IH. clear Hsplit IH.
  assert (Hone :
    flat_map (fun d => if eventOnDay LocalTZA d month year e then [eventMarker e] else [])
      (seqZ 1 (daysInMonth year month))
    = if inShownMonth LocalTZA month year e then [eventMarker e] else []).
  { destruct (inShownMonth LocalTZA month year e) eqn:Hin.
    - unfold inShownMonth in Hin.
      destruct (Date_parse (ev_date e)) as [t |] eqn:Hp; [| done].
      apply andb_true_iff in Hin as [Hmo Hyr]. apply Z.eqb_eq in Hmo, Hyr.
      pose proof (DateFromTime_bounds (LocalTime LocalTZA t)) as Hd.
      fold (getDate LocalTZA t) (getMonth LocalTZA t) (getFullYear LocalTZA t) in Hd.
      rewrite Hmo, Hyr in Hd.
      rewrite (flat_map_one _ _ (getDate LocalTZA t)).
      + rewrite eventOnDay_split. unfold inShownMonth. rewrite Hp, Hmo, Hyr, !Z.eqb_refl. done.
      + apply NoDup_seqZ.
      + apply elem_of_seqZ. lia.
      + intros d _ Hne. rewrite eventOnDay_split, Hp.
        replace (getDate LocalTZA t =? d) with false by (symmetry; apply Z.eqb_neq; done).
        by rewrite andb_false_r.
    - apply flat_map_all_nil. intros d _. by rewrite eventOnDay_split, Hin. }
  rewrite Hone. destruct (inShownMonth LocalTZA month year e); case_decide; done.
Qed.

End MoreCalendarFacts.

(** * Further properties of the form *)

Section TodayFacts.
Import JSDate JSDateFacts.
Local Open Scope Z_scope.

Lemma fourDigits_ok n : 1000 <= n <= 9999 -> fourDigits n = true.
Proof.
  intros Hn.
  assert (Hall : forallb fourDigits (seqZ 1000 9000) = true) by (vm_compute; reflexivity).
  rewrite forallb_forall in Hall. apply Hall.
  apply list_elem_of_In, elem_of_seqZ. lia.
Qed.

Lemma twoDigits_ok n : 0 <= n <= 99 -> twoDigits n = true.
Proof.
  intros Hn.
  assert (Hall : forallb twoDigits (seqZ 0 100) = true) by (vm_compute; reflexivity).
  rewrite forallb_forall in Hall. apply Hall.
  apply list_elem_of_In, elem_of_seqZ. lia.
Qed.

Lemma list_ascii_of_string_app (a b : string) :
  list_ascii_of_string (a +:+ b) = list_ascii_of_string a ++ list_ascii_of_string b.
Proof. induction a as [| c a IH]; simpl; [done | by f_equal]. Qed.

(** X10.  The date [setTodayDate] writes is a well-formed ISO date (for the
    years that have four digits): read back as the calendar reads event
    dates, it is midnight UTC of the viewer's local day. *)
Theorem todayString_parses (LocalTZA now : Z) :
  1000 <= getFullYear LocalTZA now <= 9999 ->
  Date_parse (todayString LocalTZA now)
  = Some (MakeDate (Day (LocalTime LocalTZA now)) 0).
Proof.
  intros Hy. rewrite Day_decompose.
  fold (getFullYear LocalTZA now) (getMonth LocalTZA now) (getDate LocalTZA now).
  pose proof (MonthFromTime_bounds (LocalTime LocalTZA now)) as Hm.
  pose proof (DateFromTime_bounds (LocalTime LocalTZA now)) as Hd.
  fold (getFullYear LocalTZA now) (getMonth LocalTZA now) (getDate LocalTZA now) in Hm, Hd.
  pose proof (daysInMonth_bounds (getFullYear LocalTZA now) (getMonth LocalTZA now)) as Hb.
  set (y := getFullYear LocalTZA now) in *.
  set (m := getMonth LocalTZA now) in *.
  set (d := getDate LocalTZA now) in *.
  pose proof (fourDigits_ok y Hy) as Fy.
  pose proof (twoDigits_ok (m + 1) ltac:(lia)) as Fm.
  pose proof (twoDigits_ok d ltac:(lia)) as Fd.
  unfold Date_parse, todayString. fold y m d.
  rewrite !list_ascii_of_string_app.
  unfold fourDigits in Fy. unfold twoDigits in Fm, Fd.
  destruct (list_ascii_of_string (pretty y)) as [| y1 [| y2 [| y3 [| y4 [|]]]]]; try done.
  destruct (list_ascii_of_string (padStart2 (pretty (m + 1)))) as [| m1 [| m2 [|]]]; try done.
  destruct (list_ascii_of_string (padStart2 (pretty d))) as [| d1 [| d2 [|]]]; try done.
  apply bool_decide_eq_true_1 in Fy as (Ey1 & Ey2 & Ey3 & Ey4).
  apply bool_decide_eq_true_1 in Fm as (Em1 & Em2).
  apply bool_decide_eq_true_1 in Fd as (Ed1 & Ed2).
  cbn [app list_ascii_of_string].
  rewrite Ey1, Ey2, Ey3, Ey4, Em1, Em2, Ed1, Ed2. cbn [mbind option_bind isDash].
  change (isDash "-") with true. cbn [andb].
  replace (1000 * (y / 1000) + 100 * (y / 100 mod 10) + 10 * (y / 10 mod 10) + y mod 10)
    with y by divmod.
  replace (10 * ((m + 1) / 10) + (m + 1) mod 10) with (m + 1) by divmod.
  replace (10 * (d / 10) + d mod 10) with d by divmod.
  replace (m + 1 - 1) with m by lia.
  replace (1 <=? m + 1) with true by (symmetry; apply Z.leb_le; lia).
  replace (m + 1 <=? 12) with true by (symmetry; apply Z.leb_le; lia).
  replace (1 <=? d) with true by (symmetry; apply Z.leb_le; lia).
  replace (d <=? daysInMonth y m) with true by (symmetry; apply Z.leb_le; lia).
  done.
Qed.
End TodayFacts.

Section MoreFormFacts.
Implicit Types (p : formPage) (s : select).

(** X11.  After a load the placeholder is selected, so the value of the
    select is empty, and picking the option after it that stands for the
    i-th category of the answer gives that category as the value. *)
Theorem populate_pick (categories : list string) :
  select_value (populate categories) = ""
  /\ length (sel_options (populate categories)) = (length categories + 2)%nat
  /\ forall (i : nat) (c : string), categories !! i = Some c ->
       select_value (pick (S i) (populate categories)) = c.
Proof.
  split; [done |]. split.
  { cbn. rewrite length_app, length_fmap. cbn. lia. }
  intros i c Hi. unfold pick.
  pose proof (lookup_lt_Some _ _ _ Hi) as Hlt.
  rewrite bool_decide_eq_true_2
    by (cbn; rewrite length_app, length_fmap; cbn; lia).
  unfold select_value, populate. cbn [sel_options sel_selected].
  rewrite lookup_cons, lookup_app_l by (by rewrite length_fmap).
  by rewrite list_lookup_fmap, Hi.
Qed.

(** X12.  The change handler never removes or reorders an option: it
    leaves the list as it is, or, when the sentinel is selected and the
    prompt gives a name that is not blank, puts one option of the trimmed
    name immediately before the last option, those before it and the last
    one keeping their places. *)
Theorem onCategoryChange_options (answer : option string) s :
  sel_options (onCategoryChange answer s) = sel_options s
  \/ exists a front x,
       answer = Some a /\ select_value s = sentinel /\ trim a <> ""
       /\ sel_options s = front ++ [x]
       /\ sel_options (onCategoryChange answer s)
          = front ++ [OptionEl (trim a) (trim a); x].
Proof.
  unfold onCategoryChange. case_bool_decide as Hs; [| by left].
  destruct answer as [a |]; [| by left].
  case_bool_decide as Ha; cbn; [| by left].
  case_bool_decide as Ht; cbn; [by left |].
  right.
  assert (Hne : sel_options s <> []).
  { intros Hnil. unfold select_value in Hs. rewrite Hnil in Hs.
    destruct (sel_selected s); cbn in Hs; discriminate. }
  destruct (exists_last Hne) as (front & x & Hfx).
  exists a, front, x. repeat split; try done.
  by apply insertBeforeLast_snoc.
Qed.

(** X13.  An accepted submission sends exactly one request: a POST to the
    append URL whose body is the trimmed title, the selected category, the
    amount and the date as typed. *)
Theorem submitStart_request p s (date : string) :
  categorySelect p = Some s -> dateInput p = Some date ->
  select_value s <> sentinel ->
  exists p', submitStart p = Some (p', true)
    /\ formNetwork p'
       = formNetwork p
         ++ [Request POST appendUrl
               (Some (trim (titleInput p), select_value s, amountInput p, date))]
    /\ titleInput p' = titleInput p /\ amountInput p' = amountInput p
    /\ dateInput p' = dateInput p /\ categorySelect p' = categorySelect p
    /\ message p' = message p.
Proof.
  intros Hc Hd Hv. unfold submitStart. rewrite Hc, Hd.
  rewrite bool_decide_eq_false_2 by done.
  eexists. split; [reflexivity |]. destruct (submitBtn p); cbn; by rewrite ?Hc, ?Hd.
Qed.

(** X14.  On a reply with [success] the form is cleared: title and amount
    are emptied, the select goes back to its first option, the date is set
    to today, and the message element shows the text of the server with the
    [success] class. *)
Theorem submitFinish_success (LocalTZA now : Z) (text : string) p s (date : string)
    (m : messageDiv) :
  categorySelect p = Some s -> dateInput p = Some date -> message p = Some m ->
  let p' := submitFinish LocalTZA now (Reply true text) p in
  titleInput p' = "" /\ amountInput p' = ""
  /\ dateInput p' = Some (todayString LocalTZA now)
  /\ (select_value <$> categorySelect p')
     = Some (from_option op_value "" (head (sel_options s)))
  /\ (sel_options <$> categorySelect p') = Some (sel_options s)
  /\ message p' = Some (MessageDiv text "message success")
  /\ formNetwork p' = formNetwork p.
Proof.
  intros Hc Hd Hm. destruct p as [ti cs am di sb ms tm co nw]. cbn in *. subst.
  unfold submitFinish, showMessage, setTodayDate, resetForm. cbn.
  destruct sb; cbn; repeat split; try done;
    unfold select_value; cbn; by destruct (sel_options s).
Qed.

(** X15.  On a reply without [success], a reply that is not JSON or no
    reply at all, what the user typed stays in the form; the message
    element shows the text of the server, or the network error text, with
    the [error] class. *)
Theorem submitFinish_failure (LocalTZA now : Z) (a : appendReply) p (m : messageDiv) :
  message p = Some m ->
  (forall text, a <> Reply true text) ->
  let p' := submitFinish LocalTZA now a p in
  titleInput p' = titleInput p /\ amountInput p' = amountInput p
  /\ dateInput p' = dateInput p /\ categorySelect p' = categorySelect p
  /\ formNetwork p' = formNetwork p
  /\ message p'
     = Some (MessageDiv match a with
                        | Reply _ text => text
                        | _ => "Network error. Please check your connection."
                        end "message error").
Proof.
  intros Hm Ha. destruct p as [ti cs am di sb ms tm co nw]. cbn in *. subst.
  unfold submitFinish, showMessage. 
  destruct a as [| | [|] text]; cbn; try (by destruct (Ha text));
    destruct sb; cbn; done.
Qed.

(** X16.  [loadCategories] issues exactly one request, the GET for the
    categories, and never touches a field of the form other than the
    category select; when the request fails, or the answer reports no
    success, or the page has no category select, the select is left as it
    was too. *)
Theorem loadCategories_without_list (r : response (bool * option (list string))) p :
  let p' := loadCategories r p in
  formNetwork p' = formNetwork p ++ [Request GET categoriesUrl None]
  /\ titleInput p' = titleInput p /\ amountInput p' = amountInput p
  /\ dateInput p' = dateInput p /\ submitBtn p' = submitBtn p
  /\ message p' = message p
  /\ (r = Failed \/ (exists cs, r = Body (false, cs)) \/ categorySelect p = None ->
      categorySelect p' = categorySelect p).
Proof.
  destruct p as [ti cs am di sb ms tm co nw]. cbn.
  unfold loadCategories. cbn.
  repeat split;
    try (destruct r as [[[|] [c |]] |]; cbn; destruct cs; cbn; done).
  intros [-> | [[c ->] | Hn]]; cbn in *; [done .. |]. subst cs.
  destruct r as [[[|] c] |]; cbn; done.
Qed.

End MoreFormFacts.

(** * Further properties of the transaction list *)

Section TransactionFacts.
Context {num : Type} `{JSNumber num}.
Local Abbreviation dashboard := (dashboard num).

(** X17.  The list shows one item per transaction, in the order of the
    answer, and the placeholder alone when there is none; the step never
    throws. *)
Theorem renderTransactions_items (transactions : list (transaction num)) (d : dashboard) :
  fst (renderTransactions transactions d) = Ok tt
  /\ recentTransactions (exec (renderTransactions transactions) d)
     = (if bool_decide (transactions = []) then [NoTransactionsFound]
        else transactionItem <$> transactions)
  /\ (length (recentTransactions (exec (renderTransactions transactions) d))
      = Nat.max 1 (length transactions))
  /\ (transactions <> [] ->
      NoTransactionsFound ∉ recentTransactions (exec (renderTransactions transactions) d)).
Proof.
  destruct d. destruct transactions as [| t ts]; cbn.
  - repeat split; try done.
  - repeat split; try done.
    + by rewrite length_fmap.
    + intros _ Hin. apply elem_of_cons in Hin as [? | Hin]; [done |].
      apply list_elem_of_fmap in Hin as (x & Hx & _). done.
Qed.

End TransactionFacts.

(** * The order of the requests *)

Section RequestOrder.
Context {num : Type} `{JSNumber num}.
Variable LocalTZA : Z.
Variable monthLong : Z -> string.

(** X18.  With the server reachable the requests of [init] go out in one
    fixed order: test, summary, spending by category, monthly trends (only
    if the category chart could be drawn), calendar, recent transactions. *)
Theorem init_request_order (cs : gset string) (sv : server num) (now : Z) :
  sv_test sv = Body tt ->
  rq_url <$> network (exec (init LocalTZA monthLong sv now) (pageLoaded cs))
  = [apiBase +:+ "/test"; apiBase +:+ "/summary"; apiBase +:+ "/spending-by-category"]
    ++ match sv_category sv with
       | Body _ => if bool_decide ("spending-chart" ∈ cs)
                   then [apiBase +:+ "/monthly-trends"] else []
       | Failed => []
       end
    ++ [apiBase +:+ "/calendar-data"; apiBase +:+ "/recent-transactions"].
Proof.
  intros Ht. unfold exec at 1. rewrite init_steps by done. cbn [snd].
  destruct (start_frame sv (pageLoaded cs) Ht) as (_ & _ & A1 & _ & _ & _ & _ & _ & A7).
  set (d1 := exec (testConnection sv) (exec showLoading (pageLoaded cs))) in *.
  destruct (loadSummary_frame sv d1) as (_ & B1 & _ & _ & _ & _ & _ & B7).
  set (d2 := exec (loadSummary sv) d1) in *.
  destruct (loadCharts_frame sv d2) as (_ & _ & _ & _ & _ & _ & C6).
  set (d3 := exec (loadCharts sv) d2) in *.
  destruct (loadCalendar_frame LocalTZA monthLong sv now d3) as (_ & _ & _ & _ & _ & _ & _ & D7 & _).
  set (d4 := exec (loadCalendar LocalTZA monthLong sv now) d3) in *.
  destruct (loadRecentTransactions_frame sv d4) as (_ & _ & _ & _ & _ & _ & _ & E7 & _).
  clearbody d1 d2 d3 d4. rewrite B1, A1 in C6. cbn [pageLoaded canvases] in C6.
  rewrite E7, D7, C6, B7, A7. cbn [pageLoaded network].
  destruct (sv_category sv); [case_bool_decide |]; reflexivity.
Qed.
End RequestOrder.

(** * Instances of the properties above *)

Lemma init_unreachable_server_witness :
  errorBanners (exec (init (H := Decimal.number) 0 (fun _ => "March") unreachable
                        noon20March2024) (pageLoaded bothCanvases))
  = ["Failed to load dashboard data. Please check if the server is running."].
Proof.
  exact (proj1 (proj2 (proj2 (init_unreachable_server (H := Decimal.number) 0
           (fun _ => "March") unreachable noon20March2024 (pageLoaded bothCanvases)
           eq_refl)))).
Defined.

Lemma loadSummary_bad_field_resets_all_witness :
  summaryTiles (exec (loadSummary (H := Decimal.number) withTextAmount)
                  (pageLoaded bothCanvases))
  = Tiles "0" "$0.00" "$0.00" "$0.00".
Proof.
  refine (loadSummary_bad_field_resets_all (H := Decimal.number) withTextAmount textAmount
            (pageLoaded bothCanvases) eq_refl _).
  right. exists (JStr "12.00"). split; [| split; reflexivity].
  apply elem_of_cons. left. reflexivity.
Defined.

Lemma loadSummary_renders_witness :
  summaryTiles (exec (loadSummary (H := Decimal.number) summarizing) (pageLoaded bothCanvases))
  = Tiles "3" "$1200.00" "$42.50" "$0.00".
Proof.
  destruct (loadSummary_renders (H := Decimal.number) summarizing threeTransactions
              (pageLoaded bothCanvases) 120000%Z 4250%Z 0%Z
              eq_refl eq_refl eq_refl eq_refl eq_refl) as [Ht _].
  rewrite Ht. vm_compute. reflexivity.
Defined.

Lemma chart_without_canvas_witness :
  exists e, callChart (PieCall "no-such-canvas" "" (CategoryBreakdown (num := Z) None None))
              (pageLoaded bothCanvases)
            = (Throw e, pageLoaded bothCanvases).
Proof.
  refine (chart_without_canvas
            (PieCall "no-such-canvas" "" (CategoryBreakdown (num := Z) None None))
            (pageLoaded bothCanvases) _).
  apply (bool_decide_eq_false_1 _). vm_compute. reflexivity.
Defined.

Lemma chart_bound_with_defaults_witness :
  exists i,
    charts (exec (createPieChart "spending-chart" "" (CategoryBreakdown (num := Z) None None))
              (pageLoaded bothCanvases)) !! "spending-chart" = Some i
    /\ chartInstances
         (exec (createPieChart "spending-chart" "" (CategoryBreakdown (num := Z) None None))
            (pageLoaded bothCanvases)) !! i
       = Some (Chart "spending-chart" pie [] [("", [])] false).
Proof.
  refine (proj1 (proj2 (chart_bound_with_defaults "spending-chart" ""
                          (CategoryBreakdown (num := Z) None None)
                          (pageLoaded bothCanvases) _))).
  apply (bool_decide_eq_true_1 _). vm_compute. reflexivity.
Defined.

Lemma loadCharts_second_depends_on_first_witness :
  network (exec (loadCharts struggling) (pageLoaded bothCanvases))
  = [Request GET (apiBase +:+ "/spending-by-category") None].
Proof.
  exact (proj1 (proj1 (loadCharts_second_depends_on_first struggling
                         (pageLoaded bothCanvases)) eq_refl)).
Defined.

Lemma reloadData_without_success_witness :
  network (exec (reloadData (H := Decimal.number) 0 (fun _ => "March") (Body false)
                   answering noon20March2024) (pageLoaded bothCanvases))
  = [Request GET (apiBase +:+ "/reload-data") None].
Proof.
  exact (proj1 (proj2 (reloadData_without_success (H := Decimal.number) 0 (fun _ => "March")
           (Body false) answering noon20March2024 (pageLoaded bothCanvases))
           (or_intror eq_refl))).
Defined.

Lemma renderCalendar_each_event_once_witness :
  allMarkers (calendar_grid (renderCalendar (H := Decimal.number) 0 (fun _ => "March")
                               noon20March2024 [march15]))
  ≡ₚ [Marker "calendar-event expense" "Groceries" "Groceries: $42.5"].
Proof.
  refine (renderCalendar_each_event_once (H := Decimal.number) 0 (fun _ => "March")
            noon20March2024 [march15] _ _).
  - replace (JSDate.getFullYear 0 noon20March2024) with 2024%Z by (vm_compute; reflexivity).
    lia.
  - repeat constructor. exists 1710460800000%Z. vm_compute. reflexivity.
Defined.

Lemma todayString_parses_witness :
  todayString 0 noon20March2024 = "2024-03-20"
  /\ Date_parse (todayString 0 noon20March2024)
     = Some (JSDate.MakeDate (JSDate.Day (JSDate.LocalTime 0 noon20March2024)) 0).
Proof.
  split; [vm_compute; reflexivity |].
  refine (todayString_parses 0 noon20March2024 _).
  replace (JSDate.getFullYear 0 noon20March2024) with 2024%Z by (vm_compute; reflexivity).
  lia.
Defined.

Lemma populate_pick_witness :
  select_value (pick 2 (populate ["Food"; "Rent"])) = "Rent".
Proof.
  exact (proj2 (proj2 (populate_pick ["Food"; "Rent"])) 1%nat "Rent" eq_refl).
Defined.

Lemma submitStart_request_witness :
  exists p', submitStart (samplePage (pick 1 (populate ["Food"]))) = Some (p', true)
    /\ formNetwork p'
       = [Request POST appendUrl (Some ("Coffee", "Food", "-4.50", "2024-03-15"))].
Proof.
  destruct (submitStart_request (samplePage (pick 1 (populate ["Food"])))
              (pick 1 (populate ["Food"])) "2024-03-15" eq_refl eq_refl)
    as (p' & Hs & Hn & _).
  - vm_compute. discriminate.
  - exists p'. split; [exact Hs | exact Hn].
Defined.

Lemma submitFinish_success_witness :
  let p' := submitFinish 0 noon20March2024 (Reply true "Added")
              (samplePage (pick 1 (populate ["Food"]))) in
  titleInput p' = "" /\ amountInput p' = "" /\ dateInput p' = Some "2024-03-20".
Proof.
  destruct (submitFinish_success 0 noon20March2024 "Added"
              (samplePage (pick 1 (populate ["Food"]))) (pick 1 (populate ["Food"]))
              "2024-03-15" (MessageDiv "" "message") eq_refl eq_refl eq_refl)
    as (Ht & Ha & Hd & _).
  split; [exact Ht |]. split; [exact Ha |]. rewrite Hd. vm_compute. reflexivity.
Defined.

Lemma submitFinish_failure_witness :
  let p' := submitFinish 0 noon20March2024 (Reply false "Route not found")
              (samplePage (pick 1 (populate ["Food"]))) in
  titleInput p' = " Coffee "
  /\ message p' = Some (MessageDiv "Route not found" "message error").
Proof.
  destruct (submitFinish_failure 0 noon20March2024 (Reply false "Route not found")
              (samplePage (pick 1 (populate ["Food"]))) (MessageDiv "" "message") eq_refl)
    as (Ht & _ & _ & _ & _ & Hm).
  - intros text. discriminate.
  - split; [exact Ht | exact Hm].
Defined.

Lemma loadCategories_without_list_witness :
  categorySelect (loadCategories Failed (samplePage (populate ["Food"])))
  = Some (populate ["Food"]).
Proof.
  refine (proj2 (proj2 (proj2 (proj2 (proj2 (proj2
            (loadCategories_without_list Failed (samplePage (populate ["Food"]))))))))
            (or_introl eq_refl)).
Defined.

Lemma renderTransactions_items_witness :
  NoTransactionsFound
  ∉ recentTransactions
      (exec (renderTransactions (H := Decimal.number)
               [Transaction (Some "Cafe") None None (Some (-450)%Z) "expense"])
         (pageLoaded bothCanvases)).
Proof.
  refine (proj2 (proj2 (proj2 (renderTransactions_items (H := Decimal.number)
            [Transaction (Some "Cafe") None None (Some (-450)%Z) "expense"]
            (pageLoaded bothCanvases)))) _).
  discriminate.
Defined.

Lemma init_request_order_witness :
  rq_url <$> network (exec (init (H := Decimal.number) 0 (fun _ => "March") struggling
                              noon20March2024) (pageLoaded bothCanvases))
  = ["http://localhost:3000/api/test"; "http://localhost:3000/api/summary";
     "http://localhost:3000/api/spending-by-category";
     "http://localhost:3000/api/calendar-data";
     "http://localhost:3000/api/recent-transactions"].
Proof.
  exact (init_request_order (H := Decimal.number) 0 (fun _ => "March") bothCanvases
           struggling noon20March2024 eq_refl).
Defined.

(** * Where the time zone puts an event *)

Section ZoneFacts.
Import JSDate JSDateFacts.
Context {num : Type}.
Variable LocalTZA : Z.
Local Open Scope Z_scope.

Lemma same_day_same_date a b :
  Day a = Day b ->
  DateFromTime a = DateFromTime b /\ MonthFromTime a = MonthFromTime b
  /\ YearFromTime a = YearFromTime b.
Proof.
  intros Hd.
  assert (Hy : YearFromTime a = YearFromTime b) by (unfold YearFromTime; by rewrite Hd).
  assert (Hw : DayWithinYear a = DayWithinYear b) by (unfold DayWithinYear; by rewrite Hd, Hy).
  assert (Hm : MonthFromTime a = MonthFromTime b)
    by (unfold MonthFromTime, InLeapYear; by rewrite Hw, Hy).
  repeat split; try done.
  unfold DateFromTime, InLeapYear. by rewrite Hw, Hy, Hm.
Qed.

(** X19.  An event with a valid ISO date is matched, at or east of
    Greenwich, on the day, month and year of its date field and on no
    other; west of Greenwich it is matched on the day before that date and
    on no other. *)
Theorem event_placement_by_zone (e : event num) (t day mo yr : Z) :
  Date_parse (ev_date e) = Some t ->
  (0 <= LocalTZA < msPerDay ->
     (eventOnDay LocalTZA day mo yr e = true
      <-> day = DateFromTime t /\ mo = MonthFromTime t /\ yr = YearFromTime t))
  /\ (- msPerDay <= LocalTZA < 0 ->
     (eventOnDay LocalTZA day mo yr e = true
      <-> day = DateFromTime (t - msPerDay) /\ mo = MonthFromTime (t - msPerDay)
          /\ yr = YearFromTime (t - msPerDay))).
Proof.
  intros Hp. unfold eventOnDay. rewrite Hp.
  unfold getDate, getMonth, getFullYear.
  rewrite !andb_true_iff, !Z.eqb_eq.
  assert (Hmid : exists dd, t = MakeDate dd 0).
  { unfold Date_parse in Hp. repeat (case_match; try done). simplify_option_eq.
    match goal with
    | Hi : (if ?c then _ else _) = Some _ |- _ =>
        destruct c; [injection Hi as <- | done]
    end. eauto. }
  destruct Hmid as [dd ->].
  split; intros Htz.
  - destruct (same_day_same_date (LocalTime LocalTZA (MakeDate dd 0)) (MakeDate dd 0))
      as (-> & -> & ->); [| intuition congruence].
    unfold Day, LocalTime, MakeDate, msPerDay in *. divmod.
  - destruct (same_day_same_date (LocalTime LocalTZA (MakeDate dd 0))
                (MakeDate dd 0 - msPerDay)) as (-> & -> & ->); [| intuition congruence].
    unfold Day, LocalTime, MakeDate, msPerDay in *. divmod.
Qed.
End ZoneFacts.

Lemma event_placement_by_zone_witness :
  eventOnDay tzNewYork 14 2 2024 march15 = true
  /\ eventOnDay 3600000 15 2 2024 march15 = true.
Proof.
  split.
  - refine (proj2 (proj2 (event_placement_by_zone tzNewYork march15 1710460800000%Z
                            14 2 2024 _) _) _).
    + vm_compute. reflexivity.
    + unfold JSDate.msPerDay, tzNewYork. lia.
    + vm_compute. repeat split; reflexivity.
  - refine (proj2 (proj1 (event_placement_by_zone 3600000 march15 1710460800000%Z
                            15 2 2024 _) _) _).
    + vm_compute. reflexivity.
    + unfold JSDate.msPerDay. lia.
    + vm_compute. repeat split; reflexivity.
Defined.
